(** * The demo product catalogue of satchless: pricing and main-image rules

    Shallow embedding of [examples/demo/products/models.py].

    The file follows the source top-down:
    - [Py]       exceptions and the result type of a Python call;
    - [Dec]      [decimal.Decimal] under the default context (28 digits,
                 half-even);
    - [Price], [DiscountGroup], [PriceQtyOverride], [Product], [Variant]
                 the pricing models and [Variant.get_price_for_item];
    - [ProductBase], [ProductObject], [ProductImage], [Store]
                 the image tables, the Python objects read from them and
                 the queries the source runs;
    - [Signals]  [ProductImage.save] and the two handlers
                 [assign_main_image] and [assign_new_main_image];
    - [Events]   image creations and deletions as the handlers see them. *)

From Stdlib Require Import ZArith QArith Qpower Qfield Lia Lqa Ascii.
From stdpp Require Import base option list sorting gmap strings.

Local Open Scope Z_scope.

(** ** Python calls: a value or a raised exception *)

Module Py.

(** The exception classes the source names or that the framework raises
    at the calls the source makes. *)
Inductive exn : Type :=
| IndexError          (* [queryset[0]] on an empty result *)
| DoesNotExist_PriceQtyOverride
| DoesNotExist_Product
| DoesNotExist_ProductImage
| ValueError          (* arithmetic on prices of different currencies *)
| IntegrityError.     (* a row whose foreign key has no target *)

Inductive result (A : Type) : Type :=
| Ok (a : A)
| Raise (e : exn).
Arguments Ok {A} a.
Arguments Raise {A} e.

Definition bind {A B} (r : result A) (k : A -> result B) : result B :=
  match r with
  | Ok a => k a
  | Raise e => Raise e
  end.

(** [try: body except cls: handler] catches exactly the class named. *)
Definition try_except {A} (body : result A) (catches : exn -> bool)
           (handler : result A) : result A :=
  match body with
  | Ok a => Ok a
  | Raise e => if catches e then handler else Raise e
  end.

Definition is_DoesNotExist_PriceQtyOverride (e : exn) : bool :=
  match e with DoesNotExist_PriceQtyOverride => true | _ => false end.

Definition is_DoesNotExist_Product (e : exn) : bool :=
  match e with DoesNotExist_Product => true | _ => false end.

(** [qs[0]]: the first row of an evaluated queryset.  Indexing an empty
    queryset raises [IndexError] (it is [qs.get()] that raises
    [DoesNotExist]). *)
Definition getitem0 {A} (qs : list A) : result A :=
  match qs with
  | x :: _ => Ok x
  | [] => Raise IndexError
  end.

End Py.

(** [x ← c; k] sequences two calls: an exception raised by [c] leaves
    through [k]. *)
#[export] Instance result_bind : MBind Py.result := fun _ _ k r => Py.bind r k.
#[export] Instance result_ret : MRet Py.result := fun _ a => Py.Ok a.

(** ** Decimals *)

Module Dec.

(** A finite [decimal.Decimal]: the number [coef * 10 ^ expo].  The sign
    lives in [coef], so the negative zero is not kept apart, and the
    exponent limits of the context (about 10^9) are not modelled. *)
Record Decimal : Type := mkDec { coef : Z; expo : Z }.

(** [getcontext().prec] *)
Definition prec : Z := 28.

Definition value (d : Decimal) : Q :=
  (inject_Z (coef d) * 10 ^ expo d)%Q.

Fixpoint ndigits_aux (fuel : nat) (n : Z) : Z :=
  match fuel with
  | O => 1
  | S f => if n <? 10 then 1 else 1 + ndigits_aux f (n / 10)
  end.

(** number of decimal digits of [n >= 0] *)
Definition ndigits (n : Z) : Z := ndigits_aux (Z.to_nat (Z.log2 n)) n.

(** ROUND_HALF_EVEN of [n / 10^k] for [n >= 0] *)
Definition round_half_even (n k : Z) : Z :=
  let q := n / 10 ^ k in
  let r := n mod 10 ^ k in
  match 2 * r ?= 10 ^ k with
  | Lt => q
  | Gt => q + 1
  | Eq => if Z.even q then q else q + 1
  end.

(** [Decimal._fix]: a coefficient of more than [prec] digits is rounded
    to [prec] digits; one that fits is returned as it is. *)
Definition fix_ (d : Decimal) : Decimal :=
  let n := Z.abs (coef d) in
  if n <? 10 ^ prec then d
  else
    let k := ndigits n - prec in
    let c := round_half_even n k in
    let '(c, k) := if c <? 10 ^ prec then (c, k) else (c / 10, k + 1) in
    mkDec (Z.sgn (coef d) * c) (expo d + k).

Definition neg (a : Decimal) : Decimal := mkDec (- coef a) (expo a).

(** [a + b]: both coefficients are brought to the smaller exponent. *)
Definition add (a b : Decimal) : Decimal :=
  let e := Z.min (expo a) (expo b) in
  fix_ (mkDec (coef a * 10 ^ (expo a - e) + coef b * 10 ^ (expo b - e)) e).

(** [a - b] is [a + (-b)] *)
Definition sub (a b : Decimal) : Decimal := add a (neg b).

Definition mul (a b : Decimal) : Decimal :=
  fix_ (mkDec (coef a * coef b) (expo a + expo b)).

(** [a <= b], by value *)
Definition leb (a b : Decimal) : bool := Qle_bool (value a) (value b).

(** A value that a [DecimalField(max_digits, decimal_places)] column
    holds: at most [decimal_places] digits after the point and, written
    with that many, at most [max_digits] digits in all. *)
Definition fits (max_digits decimal_places : Z) (d : Decimal) : Prop :=
  - decimal_places <= expo d <= 0 /\
  Z.abs (coef d) * 10 ^ (expo d + decimal_places) < 10 ^ max_digits.

(** [Decimal('0.01')] *)
Definition d0_01 : Decimal := mkDec 1 (-2).

End Dec.

(** ** The pricing models *)

Module Price.
Import Py Dec.

(** [prices.Price] as the source builds it, from one amount and a
    currency (net and gross then coincide, so one amount is kept). *)
Record t : Type := mk { amount : Decimal; currency : string }.

(** [p + q] and [p - q] refuse prices of different currencies. *)
Definition add (p q : t) : result t :=
  if String.eqb (currency p) (currency q)
  then Ok (mk (Dec.add (amount p) (amount q)) (currency p))
  else Raise ValueError.

Definition sub (p q : t) : result t :=
  if String.eqb (currency p) (currency q)
  then Ok (mk (Dec.sub (amount p) (amount q)) (currency p))
  else Raise ValueError.

(** [p * d] for a number [d] *)
Definition mul (p : t) (d : Decimal) : t :=
  mk (Dec.mul (amount p) d) (currency p).
End Price.

Module DiscountGroup.
Import Dec.

Record t : Type := mk { name : string; rate : Decimal; rate_name : string }.

(** [price * self.rate * decimal.Decimal('0.01')] *)
Definition get_discount_amount (self : t) (price : Price.t) : Price.t :=
  Price.mul (Price.mul price (rate self)) d0_01.
End DiscountGroup.

Module PriceQtyOverride.
(** A row of the overrides of one product (the [product] key is the
    list the row is kept in, [Product.qty_price_overrides]). *)
Record t : Type := mk { min_qty : Dec.Decimal; price : Dec.Decimal }.
End PriceQtyOverride.

Module Product.
Import Py Dec.

Inductive qty_mode_t : Type := per_product | per_variant.

Record t : Type := mk {
  qty_mode : qty_mode_t;
  price : Decimal;
  discount : option DiscountGroup.t;
  qty_price_overrides : list PriceQtyOverride.t
}.

(** [order_by('-min_qty')]: greatest [min_qty] first. *)
Definition by_min_qty_desc (a b : PriceQtyOverride.t) : Prop :=
  Dec.leb (PriceQtyOverride.min_qty b) (PriceQtyOverride.min_qty a) = true.

#[global] Instance by_min_qty_desc_dec a b : Decision (by_min_qty_desc a b).
Proof. unfold by_min_qty_desc. apply _. Defined.

Section with_settings.
(** [settings.SATCHESS_DEFAULT_CURRENCY] *)
Variable SATCHESS_DEFAULT_CURRENCY : string.

Definition _get_base_price (self : t) (quantity : Decimal) : result Price.t :=
  let overrides := qty_price_overrides self in
  let overrides :=
    merge_sort by_min_qty_desc
      (filter (fun o => Dec.leb (PriceQtyOverride.min_qty o) quantity = true)
              overrides) in
  let currency := SATCHESS_DEFAULT_CURRENCY in
  try_except
    (override ← getitem0 overrides;
     Ok (Price.mk (PriceQtyOverride.price override) currency))
    is_DoesNotExist_PriceQtyOverride
    (Ok (Price.mk (price self) currency)).
End with_settings.
End Product.

Module Variant.
Import Py Dec.

Record t : Type := mk { product : Product.t; price_offset : Decimal }.

Section with_settings.
Variable SATCHESS_DEFAULT_CURRENCY : string.

(** A model instance is always true in a condition, so
    [self.product.discount] is false exactly when the reference is
    null. *)
Definition get_price_for_item (self : t) (discount : bool)
           (quantity : Decimal) : result Price.t :=
  let currency := SATCHESS_DEFAULT_CURRENCY in
  price ← Product._get_base_price currency (product self) quantity;
  price ← Price.add price (Price.mk (price_offset self) currency);
  match discount, Product.discount (product self) with
  | true, Some group =>
      Price.sub price (DiscountGroup.get_discount_amount group price)
  | _, _ => Ok price
  end.
End with_settings.
End Variant.

(** The scenario of the catalogue used in the examples: base price
    10.0000, tiers (5, 8.0000) and (10, 6.0000), variant offset 0.5000. *)
Definition dec4 (n : Z) : Dec.Decimal := Dec.mkDec n (-4).
Definition qty (n : Z) : Dec.Decimal := Dec.mkDec n 0.

Definition tiered_product (g : option DiscountGroup.t) : Product.t :=
  Product.mk Product.per_variant (dec4 100000) g
    [PriceQtyOverride.mk (dec4 50000) (dec4 80000);
     PriceQtyOverride.mk (dec4 100000) (dec4 60000)].

Definition tiered_variant (g : option DiscountGroup.t) : Variant.t :=
  Variant.mk (tiered_product g) (dec4 5000).

Definition group20 : DiscountGroup.t :=
  DiscountGroup.mk "sale" (Dec.mkDec 2000 (-2)) "20%".

(** ** Images and the main image of a product *)

Module ProductBase.
(** The columns of a product the image rules read and write:
    [main_image] holds the key of a [ProductImage] or is null. *)
Record t : Type := mk { pk : Z; main_image : option Z }.
End ProductBase.

Module ProductObject.
(** The Python object of a product, as a caller or an image instance
    holds it: the columns as the object has them, which may lag behind
    the row, and whether the image behind [main_image] sits in the cache
    of the object (it does once the attribute was read or assigned). *)
Record t : Type := mk { columns : ProductBase.t; main_image_cached : bool }.

Definition pk (product : t) : Z := ProductBase.pk (columns product).
End ProductObject.

Module ProductImage.
Import Py.

(** The Python object: [pk] is [None] until the first save, [order] is
    [None] when the caller left it out. *)
Record t : Type := mk {
  pk : option Z;
  product_id : Z;
  caption : string;
  order : option N
}.

(** A row of the table ([order] is a not-null column). *)
Record row : Type := mkRow {
  r_pk : Z;
  r_product_id : Z;
  r_caption : string;
  r_order : N
}.
End ProductImage.

Module Store.
Import Py.

(** The tables the rules work on; [next_pk] is the key the next
    inserted image gets. *)
Record t : Type := mk {
  products : gmap Z ProductBase.t;
  images : list ProductImage.row;
  next_pk : Z
}.

(** [Meta.ordering = ('order',)] *)
Definition by_order (a b : ProductImage.row) : Prop :=
  (ProductImage.r_order a <= ProductImage.r_order b)%N.

#[global] Instance by_order_dec a b : Decision (by_order a b).
Proof. unfold by_order. apply _. Defined.

(** [product.images]: the rows whose key points at the product. *)
Definition images_of (st : t) (product_pk : Z) : list ProductImage.row :=
  filter (fun r => ProductImage.r_product_id r = product_pk) (images st).

(** [product.images.all()], in the default ordering *)
Definition images_all (st : t) (product_pk : Z) : list ProductImage.row :=
  merge_sort by_order (images_of st product_pk).

(** [product.images.exists()] *)
Definition images_exists (st : t) (product_pk : Z) : bool :=
  match images_of st product_pk with [] => false | _ :: _ => true end.

(** [product.images.aggregate(max_order=Max("order"))['max_order']]:
    [None] over no rows. *)
Definition max_order (r : ProductImage.row) (rs : list ProductImage.row) : N :=
  foldr (fun x m => N.max (ProductImage.r_order x) m) (ProductImage.r_order r) rs.

Definition aggregate_max_order (st : t) (product_pk : Z) : option N :=
  match images_of st product_pk with
  | [] => None
  | r :: rs => Some (max_order r rs)
  end.

(** Fetching the product of a key: a fresh object with the columns of
    the row and an empty cache, [DoesNotExist] when no row has the key. *)
Definition fetch_product (st : t) (product_pk : Z) : result ProductObject.t :=
  match products st !! product_pk with
  | Some p => Ok (ProductObject.mk p false)
  | None => Raise DoesNotExist_Product
  end.

Definition get_image (st : t) (k : Z) : result ProductImage.row :=
  match filter (fun r => ProductImage.r_pk r = k) (images st) with
  | r :: _ => Ok r
  | [] => Raise DoesNotExist_ProductImage
  end.

(** [product.main_image]: [None] for a null key; the cached image when
    there is one; otherwise the image is fetched by its key, and
    [ProductImage.DoesNotExist] is raised when its row is gone.  The image
    is given by its key. *)
Definition main_image_of (st : t) (product : ProductObject.t)
  : result (option Z) :=
  match ProductBase.main_image (ProductObject.columns product) with
  | None => Ok None
  | Some m =>
      if ProductObject.main_image_cached product then Ok (Some m)
      else (_ ← get_image st m; Ok (Some m))
  end.

(** [product.save()] *)
Definition save_product (st : t) (p : ProductBase.t) : t :=
  mk (<[ProductBase.pk p := p]> (products st)) (images st) (next_pk st).

(** A new row goes in under the next key. *)
Definition insert_row (st : t) (r : ProductImage.row) : t :=
  mk (products st) (images st ++ [r]) (next_pk st + 1).

(** [Model.save] of an image: an insert under a fresh key when [pk] is
    [None], an update of the row otherwise.  The [order] column is not
    null; the product key is written as it is, whether or not a product
    has it. *)
Definition save_base (st : t) (self : ProductImage.t)
  : result (t * ProductImage.row) :=
  match ProductImage.order self with
  | None => Raise IntegrityError
  | Some o =>
      match ProductImage.pk self with
      | None =>
          let r := ProductImage.mkRow (next_pk st) (ProductImage.product_id self)
                                      (ProductImage.caption self) o in
          Ok (insert_row st r, r)
      | Some k =>
          let r := ProductImage.mkRow k (ProductImage.product_id self)
                                      (ProductImage.caption self) o in
          match get_image st k with
          | Ok _ =>
              Ok (mk (products st)
                     ((fun x => if decide (ProductImage.r_pk x = k) then r else x)
                        <$> images st)
                     (next_pk st), r)
          | Raise _ =>
              Ok (mk (products st) (images st ++ [r])
                     (Z.max (next_pk st) (k + 1)), r)
          end
      end
  end.

(** [on_delete=models.SET_NULL] for the image [k] *)
Definition set_null (k : Z) (p : ProductBase.t) : ProductBase.t :=
  if decide (ProductBase.main_image p = Some k)
  then ProductBase.mk (ProductBase.pk p) None
  else p.

(** Deleting the image [k]: the row goes, and every [main_image] that
    pointed at it is nulled. *)
Definition delete_row (st : t) (k : Z) : t :=
  mk (set_null k <$> products st)
     (filter (fun r => ProductImage.r_pk r <> k) (images st))
     (next_pk st).
End Store.

Module Signals.
Import Py.

(** [x or 0] on the result of the aggregate *)
Definition or_0 (x : option N) : N :=
  match x with
  | Some n => if (n =? 0)%N then 0%N else n
  | None => 0%N
  end.

(** [ProductImage.save]: the order left out is taken from the
    aggregate, then the row is written.  [self_product] is
    [self.product]: the object the instance holds, or the result of
    fetching it. *)
Definition save_with (st : Store.t) (self : ProductImage.t)
           (self_product : result ProductObject.t)
  : result (Store.t * ProductImage.row) :=
  self ←
    match ProductImage.order self with
    | None =>
        product ← self_product;
        Ok (ProductImage.mk (ProductImage.pk self)
              (ProductImage.product_id self) (ProductImage.caption self)
              (Some (or_0 (Store.aggregate_max_order st (ProductObject.pk product)))))
    | Some _ => Ok self
    end;
  Store.save_base st self.

(** [ProductImage.save] of an instance that holds no product object:
    [self.product] fetches it. *)
Definition save (st : Store.t) (self : ProductImage.t)
  : result (Store.t * ProductImage.row) :=
  save_with st self (Store.fetch_product st (ProductImage.product_id self)).

(** The [post_save] handler.  [instance_product] is [instance.product]:
    the related object, or the exception its lookup raises. *)
Definition assign_main_image (st : Store.t) (instance : ProductImage.row)
           (instance_product : result ProductBase.t) (raw : bool)
  : result Store.t :=
  if raw then Ok st
  else
    product ← instance_product;
    match ProductBase.main_image product with
    | Some _ => Ok st
    | None =>
        if Store.images_exists st (ProductBase.pk product) then
          first ← getitem0 (Store.images_all st (ProductBase.pk product));
          Ok (Store.save_product st
                (ProductBase.mk (ProductBase.pk product)
                                (Some (ProductImage.r_pk first))))
        else Ok st
    end.

(** The [post_delete] handler, run on the store the deletion left.
    [instance_product] is [instance.product]: the object the instance
    holds, or the result of fetching it.  Reading [product.main_image]
    comes first and may raise [ProductImage.DoesNotExist], which the
    [except Product.DoesNotExist] clause does not catch.  Two instances
    are equal when their keys are. *)
Definition assign_new_main_image (st : Store.t) (instance : ProductImage.row)
           (instance_product : result ProductObject.t)
  : result Store.t :=
  try_except
    (product ← instance_product;
     main_image ← Store.main_image_of st product;
     if bool_decide (main_image = Some (ProductImage.r_pk instance))
        && Store.images_exists st (ProductObject.pk product)
     then
       first ← getitem0 (Store.images_all st (ProductObject.pk product));
       Ok (Store.save_product st
             (ProductBase.mk (ProductObject.pk product)
                             (Some (ProductImage.r_pk first))))
     else Ok st)
    is_DoesNotExist_Product
    (Ok st).
End Signals.

(** ** Image events *)

Module Events.
Import Py.

(** An image is created (by [save], or by a raw load that writes the row
    as given) or an image instance is deleted.  [held] is the product
    object the instance holds, if it holds one: the one it was built
    with or the one an earlier read of [instance.product] left in it. *)
Inductive event : Type :=
| Created (product_id : Z) (caption : string) (order : option N) (raw : bool)
          (held : option ProductObject.t)
| Deleted (instance : ProductImage.row) (held : option ProductObject.t).

(** [instance.product]: the object held, or a fetch by the key. *)
Definition instance_product (st : Store.t) (product_id : Z)
           (held : option ProductObject.t) : result ProductObject.t :=
  match held with
  | Some product => Ok product
  | None => Store.fetch_product st product_id
  end.

Definition columns_of (r : result ProductObject.t) : result ProductBase.t :=
  product ← r; Ok (ProductObject.columns product).

(** [post_save] reaches [assign_main_image].  Outside a raw load the
    handler reads [instance.product] and then its [main_image], and either
    read may raise, before the product as read is tested. *)
Definition send_post_save (st : Store.t) (instance : ProductImage.row)
           (instance_product : result ProductObject.t) (raw : bool)
  : result Store.t :=
  if raw then Signals.assign_main_image st instance (columns_of instance_product) true
  else
    product ← instance_product;
    _ ← Store.main_image_of st product;
    Signals.assign_main_image st instance (Ok (ProductObject.columns product)) false.

(** The row is written, then [post_save] is sent.  The result is the
    store the call leaves and whether it raised: a handler that raises
    does so after the row is written. *)
Definition on_image_created (st : Store.t) (product_id : Z)
           (caption : string) (order : option N) (raw : bool)
           (held : option ProductObject.t)
  : Store.t * result unit :=
  let self := ProductImage.mk None product_id caption order in
  match (if raw then Store.save_base st self
         else Signals.save_with st self (instance_product st product_id held)) with
  | Raise e => (st, Raise e)
  | Ok (st1, instance) =>
      match send_post_save st1 instance
              (instance_product st1 product_id held) raw with
      | Ok st2 => (st2, Ok tt)
      | Raise e => (st1, Raise e)
      end
  end.

(** The row is deleted (the store nulls the [main_image] that pointed at
    it), then [post_delete] reaches [assign_new_main_image].  The signal
    is sent inside the transaction of the deletion: when the handler
    raises, the deletion is undone. *)
Definition on_image_deleted (st : Store.t) (instance : ProductImage.row)
           (held : option ProductObject.t)
  : Store.t * result unit :=
  let st1 := Store.delete_row st (ProductImage.r_pk instance) in
  match Signals.assign_new_main_image st1 instance
          (instance_product st1 (ProductImage.r_product_id instance) held) with
  | Ok st2 => (st2, Ok tt)
  | Raise e => (st, Raise e)
  end.

Definition handle (st : Store.t) (ev : event) : Store.t * result unit :=
  match ev with
  | Created product_id caption order raw held =>
      on_image_created st product_id caption order raw held
  | Deleted instance held => on_image_deleted st instance held
  end.

(** The store an event leaves *)
Definition step (st : Store.t) (ev : event) : Store.t := fst (handle st ev).

Definition run (st : Store.t) (evs : list event) : Store.t :=
  foldl step st evs.

Definition is_raw (ev : event) : bool :=
  match ev with Created _ _ _ raw _ => raw | Deleted _ _ => false end.
End Events.

(** A store with the one product 1 and no image. *)
Definition empty_store : Store.t :=
  Store.mk {[ 1 := ProductBase.mk 1 None ]} [] 1.

(** A product with the images 1, 2, 3 at orders 0, 1, 2 and main image 1 *)
Definition three_images : Store.t :=
  Events.run empty_store
    [Events.Created 1 "a" (Some 0%N) false None;
     Events.Created 1 "b" (Some 1%N) false None;
     Events.Created 1 "c" (Some 2%N) false None].

(** The product 1 with a single image, which is its main image *)
Definition one_image : Store.t :=
  Events.run empty_store [Events.Created 1 "a" None false None].

(** The same rows loaded raw: no main image was assigned. *)
Definition three_images_raw : Store.t :=
  Events.run empty_store
    [Events.Created 1 "a" (Some 0%N) true None;
     Events.Created 1 "b" (Some 1%N) true None;
     Events.Created 1 "c" (Some 2%N) true None].

(** ** The display name of an image *)

Module OsPath.
(** [p.rfind('/')]: the index of the last slash, [None] where Python
    gives -1. *)
Fixpoint rfind_slash (p : string) : option nat :=
  match p with
  | EmptyString => None
  | String a r =>
      match rfind_slash r with
      | Some i => Some (S i)
      | None => if Ascii.eqb a "/"%char then Some O else None
      end
  end.

(** [p[i:]] *)
Fixpoint slice_from (i : nat) (p : string) {struct i} : string :=
  match i with
  | O => p
  | S i => match p with
           | EmptyString => EmptyString
           | String _ r => slice_from i r
           end
  end.

(** [posixpath.basename]: [i = p.rfind('/') + 1; return p[i:]] *)
Definition basename (p : string) : string :=
  let i := match rfind_slash p with Some i => S i | None => O end in
  slice_from i p.
End OsPath.

(** [ProductImage.__unicode__], on the stored file name
    [self.image.name] *)
Definition ProductImage_unicode (image_name : string) : string :=
  OsPath.basename image_name.

(** ** Vocabulary of the properties *)

(** [o] is the tier that applies to [q] among [rows]: it qualifies and
    no qualifying row has a greater [min_qty]. *)
Definition applicable_tier (rows : list PriceQtyOverride.t) (q : Dec.Decimal)
           (o : PriceQtyOverride.t) : Prop :=
  o ∈ rows /\
  Dec.leb (PriceQtyOverride.min_qty o) q = true /\
  forall o', o' ∈ rows -> Dec.leb (PriceQtyOverride.min_qty o') q = true ->
             Dec.leb (PriceQtyOverride.min_qty o') (PriceQtyOverride.min_qty o) = true.

(** The columns of a variant, of its product and of the rows the product
    owns hold what their declarations allow: prices and offsets are
    [DecimalField(max_digits=12, decimal_places=4)], the rate of a
    discount group is [DecimalField(max_digits=4, decimal_places=2)]. *)
Definition variant_columns_ok (v : Variant.t) : Prop :=
  Dec.fits 12 4 (Variant.price_offset v) /\
  Dec.fits 12 4 (Product.price (Variant.product v)) /\
  Forall (fun o => Dec.fits 12 4 (PriceQtyOverride.price o))
         (Product.qty_price_overrides (Variant.product v)) /\
  forall g, Product.discount (Variant.product v) = Some g ->
            Dec.fits 4 2 (DiscountGroup.rate g).

(** A variant sold under its cost: unit price 1.0000 from quantity 1,
    offset -2.0000, in the 20% group. *)
Definition loss_variant : Variant.t :=
  Variant.mk
    (Product.mk Product.per_variant (dec4 10000) (Some group20)
                [PriceQtyOverride.mk (dec4 10000) (dec4 10000)])
    (dec4 (-20000)).

(** Keys of images are unique and below [next_pk]; a product is stored
    under its own key. *)
Definition store_wf (st : Store.t) : Prop :=
  NoDup (ProductImage.r_pk <$> Store.images st) /\
  Forall (fun r => ProductImage.r_pk r < Store.next_pk st) (Store.images st) /\
  forall k p, Store.products st !! k = Some p -> ProductBase.pk p = k.



(** [r] is a first row of [rows] in the ordering by [order]. *)
Definition first_by_order (rows : list ProductImage.row) (r : ProductImage.row)
  : Prop :=
  r ∈ rows /\
  forall r', r' ∈ rows -> (ProductImage.r_order r <= ProductImage.r_order r')%N.

(** No dangling main image: a [main_image] that is not null is the key
    of one of the product's own images. *)
Definition main_image_sound (st : Store.t) : Prop :=
  forall k p m,
    Store.products st !! k = Some p ->
    ProductBase.main_image p = Some m ->
    exists r, r ∈ Store.images_of st k /\ ProductImage.r_pk r = m.

(** The instance holds no product object, or one whose columns are those
    of the stored row. *)
Definition holds_current (st : Store.t) (product_id : Z)
           (held : option ProductObject.t) : Prop :=
  match held with
  | None => True
  | Some product =>
      Store.products st !! product_id = Some (ProductObject.columns product)
  end.

(** The writes of the image rules: a store reached from [st] by row
    insertions under the next key, row deletions with their nulling, and
    saves of a product whose main image is one of its images at the time
    of the save. *)
Inductive written (st : Store.t) : Store.t -> Prop :=
| written_same : written st st
| written_insert st1 r :
    written st st1 ->
    ProductImage.r_pk r = Store.next_pk st1 ->
    written st (Store.insert_row st1 r)
| written_delete st1 k :
    written st st1 ->
    written st (Store.delete_row st1 k)
| written_save st1 j first :
    written st st1 ->
    first ∈ Store.images_of st1 j ->
    written st (Store.save_product st1
                  (ProductBase.mk j (Some (ProductImage.r_pk first)))).

(** * Properties *)

(** ** Decimal arithmetic is exact below the context precision *)

Section decimal_facts.
Import Dec.

Lemma ten_neq_0 : ~ (10 == 0)%Q.
Proof. discriminate. Qed.

(** Beyond the precision the context rounds: a 30-digit integer plus 0
    is [1.234567890123456789012345679E+29]. *)
Example add_rounds :
  add (mkDec 123456789012345678901234567890 0) (mkDec 0 0)
  = mkDec 1234567890123456789012345679 2.
Proof. vm_compute. reflexivity. Qed.

Lemma fix_small d : Z.abs (coef d) < 10 ^ prec -> fix_ d = d.
Proof.
  intros H. unfold fix_. cbv zeta.
  destruct (Z.ltb_spec (Z.abs (coef d)) (10 ^ prec)); [reflexivity | lia].
Qed.

(** Bringing a coefficient to a smaller exponent keeps the value. *)
Lemma value_rescale c e e' :
  e' <= e ->
  (inject_Z (c * 10 ^ (e - e')) * 10 ^ e' == inject_Z c * 10 ^ e)%Q.
Proof.
  intros H.
  rewrite inject_Z_mult, Zpower_Qpower by lia.
  replace e with ((e - e') + e') at 2 by lia.
  rewrite (Qpower_plus 10 (e - e') e') by apply ten_neq_0.
  change (inject_Z 10) with 10%Q. ring.
Qed.

Lemma value_add a b :
  Z.abs (coef a * 10 ^ (expo a - Z.min (expo a) (expo b))
         + coef b * 10 ^ (expo b - Z.min (expo a) (expo b))) < 10 ^ prec ->
  (value (add a b) == value a + value b)%Q.
Proof.
  intros H. unfold add. cbv zeta. rewrite fix_small by exact H.
  unfold value at 1. cbn [coef expo].
  rewrite inject_Z_plus, Qmult_plus_distr_l.
  rewrite !value_rescale by lia. reflexivity.
Qed.

Lemma value_neg a : (value (neg a) == - value a)%Q.
Proof. unfold value, neg. cbn [coef expo]. rewrite inject_Z_opp. ring. Qed.

Lemma value_mul a b :
  Z.abs (coef a * coef b) < 10 ^ prec ->
  (value (mul a b) == value a * value b)%Q.
Proof.
  intros H. unfold mul. rewrite fix_small by exact H.
  unfold value. cbn [coef expo].
  rewrite inject_Z_mult, (Qpower_plus 10) by apply ten_neq_0. ring.
Qed.

Lemma value_sub a b :
  Z.abs (coef a * 10 ^ (expo a - Z.min (expo a) (expo b))
         - coef b * 10 ^ (expo b - Z.min (expo a) (expo b))) < 10 ^ prec ->
  (value (sub a b) == value a - value b)%Q.
Proof.
  intros H. unfold sub. rewrite value_add, value_neg; [ring |].
  cbn [neg coef expo].
  replace (- coef b * 10 ^ (expo b - Z.min (expo a) (expo b)))
    with (- (coef b * 10 ^ (expo b - Z.min (expo a) (expo b)))) by ring.
  exact H.
Qed.

Lemma leb_le a b : leb a b = true <-> (value a <= value b)%Q.
Proof. apply Qle_bool_iff. Qed.

Lemma leb_total a b : leb a b = true \/ leb b a = true.
Proof.
  rewrite !leb_le.
  destruct (Qlt_le_dec (value a) (value b)) as [H | H];
    [left; apply Qlt_le_weak, H | right; exact H].
Qed.

Lemma leb_trans a b c : leb a b = true -> leb b c = true -> leb a c = true.
Proof. rewrite !leb_le. apply Qle_trans. Qed.

End decimal_facts.

(** ** Field-sized operands never reach the precision *)

Section field_bounds.
Import Dec.

Lemma pow10_pos k : 0 <= k -> 0 < 10 ^ k.
Proof. intros. apply Z.pow_pos_nonneg; lia. Qed.

(** A field value brought to any exponent the field allows keeps a
    coefficient of at most [max_digits] digits. *)
Lemma rescale_bound md dp d e :
  fits md dp d -> - dp <= e <= expo d ->
  Z.abs (coef d * 10 ^ (expo d - e)) < 10 ^ md.
Proof.
  intros [He Hc] Hr.
  rewrite Z.abs_mul, (Z.abs_eq (10 ^ _)) by (apply Z.pow_nonneg; lia).
  eapply Z.le_lt_trans; [| exact Hc].
  apply Z.mul_le_mono_nonneg_l; [lia |].
  apply Z.pow_le_mono_r; lia.
Qed.

Lemma coef_bound md dp d : fits md dp d -> Z.abs (coef d) < 10 ^ md.
Proof.
  intros H. pose proof (rescale_bound md dp d (expo d) H) as B.
  destruct H as [He _]. rewrite Z.sub_diag, Z.mul_1_r in B. apply B. lia.
Qed.

Section offset_price.
Variables a b : Decimal.
Hypothesis Ha : fits 12 4 a.
Hypothesis Hb : fits 12 4 b.

Let e := Z.min (expo a) (expo b).

Lemma add_coef_bound :
  Z.abs (coef a * 10 ^ (expo a - e) + coef b * 10 ^ (expo b - e))
  < 2 * 10 ^ 12.
Proof.
  pose proof (rescale_bound 12 4 a e Ha) as Ba.
  pose proof (rescale_bound 12 4 b e Hb) as Bb.
  destruct Ha as [Hea _], Hb as [Heb _]. subst e.
  specialize (Ba ltac:(lia)). specialize (Bb ltac:(lia)). lia.
Qed.

Lemma add_exact :
  add a b = mkDec (coef a * 10 ^ (expo a - e) + coef b * 10 ^ (expo b - e)) e.
Proof.
  unfold add. cbv zeta. apply fix_small. cbn [coef].
  pose proof add_coef_bound as B. fold e.
  assert (2 * 10 ^ 12 < 10 ^ prec) by (vm_compute; reflexivity). lia.
Qed.

Lemma add_expo : - 4 <= expo (add a b) <= 0.
Proof.
  rewrite add_exact. cbn [expo]. subst e.
  destruct Ha as [Hea _], Hb as [Heb _]. lia.
Qed.

Lemma add_coef : Z.abs (coef (add a b)) < 2 * 10 ^ 12.
Proof. rewrite add_exact. cbn [coef]. apply add_coef_bound. Qed.

Lemma add_value : (value (add a b) == value a + value b)%Q.
Proof.
  apply value_add. fold e. pose proof add_coef_bound as B.
  assert (2 * 10 ^ 12 < 10 ^ prec) by (vm_compute; reflexivity). lia.
Qed.
End offset_price.

(** The discount of a [rate] column on a price of at most 13 digits:
    both products and the subtraction are exact. *)
Lemma discount_exact p r :
  Z.abs (coef p) < 2 * 10 ^ 12 -> - 4 <= expo p <= 0 -> fits 4 2 r ->
  (value (sub p (mul (mul p r) d0_01)) == value p * (1 - value r / 100))%Q.
Proof.
  intros Hp Hep Hr.
  pose proof (coef_bound 4 2 r Hr) as Hcr. destruct Hr as [Her _].
  assert (Hpr : Z.abs (coef p * coef r) < 2 * 10 ^ 16).
  { rewrite Z.abs_mul.
    change (2 * 10 ^ 16) with ((2 * 10 ^ 12) * 10 ^ 4).
    apply Z.mul_lt_mono_nonneg; lia. }
  assert (Hm1 : mul p r = mkDec (coef p * coef r) (expo p + expo r)).
  { unfold mul. apply fix_small. cbn [coef].
    assert (2 * 10 ^ 16 < 10 ^ prec) by (vm_compute; reflexivity). lia. }
  assert (Hm2 : mul (mul p r) d0_01
                = mkDec (coef p * coef r) (expo p + expo r - 2)).
  { rewrite Hm1. unfold mul, d0_01. cbn [coef expo].
    rewrite Z.mul_1_r. replace (expo p + expo r + -2) with (expo p + expo r - 2) by lia.
    apply fix_small. cbn [coef].
    assert (2 * 10 ^ 16 < 10 ^ prec) by (vm_compute; reflexivity). lia. }
  rewrite value_sub.
  - rewrite Hm2. unfold value. cbn [coef expo].
    replace (expo p + expo r - 2) with (expo p + (expo r + -2)) by lia.
    rewrite inject_Z_mult, !(Qpower_plus 10) by apply ten_neq_0.
    change (10 ^ (-2))%Q with (1 # 100)%Q. field.
  - rewrite Hm2. cbn [coef expo].
    rewrite Z.min_r by lia.
    replace (expo p + expo r - 2 - (expo p + expo r - 2)) with 0 by lia.
    replace (expo p - (expo p + expo r - 2)) with (2 - expo r) by lia.
    rewrite Z.pow_0_r, Z.mul_1_r.
    assert (Hs : Z.abs (coef p * 10 ^ (2 - expo r)) < 2 * 10 ^ 16).
    { rewrite Z.abs_mul, (Z.abs_eq (10 ^ _)) by (apply Z.pow_nonneg; lia).
      change (2 * 10 ^ 16) with ((2 * 10 ^ 12) * 10 ^ 4).
      assert (10 ^ (2 - expo r) <= 10 ^ 4) by (apply Z.pow_le_mono_r; lia).
      pose proof (pow10_pos (2 - expo r) ltac:(lia)).
      apply Z.le_lt_trans with (Z.abs (coef p) * 10 ^ 4); [| lia].
      apply Z.mul_le_mono_nonneg_l; lia. }
    assert (4 * 10 ^ 16 < 10 ^ prec) by (vm_compute; reflexivity). lia.
Qed.

End field_bounds.

(** ** The first row of an ordered queryset *)

Section first_row.
Context {A : Type} (R : relation A) `{!forall x y, Decision (R x y)}.
Context `{!Transitive R, !Total R}.

Lemma merge_sort_first l x l' :
  merge_sort R l = x :: l' -> x ∈ l /\ forall y, y ∈ l -> R x y.
Proof.
  intros E.
  pose proof (merge_sort_Permutation R l) as P.
  pose proof (StronglySorted_merge_sort R l) as S.
  rewrite E in P, S. split.
  - rewrite <- P. left.
  - intros y Hy. rewrite <- P in Hy.
    apply elem_of_cons in Hy as [-> | Hy].
    + destruct (total R x x); assumption.
    + apply StronglySorted_inv in S as [_ F].
      rewrite Forall_forall in F. apply F. exact Hy.
Qed.

Lemma merge_sort_nonempty l : l <> [] -> merge_sort R l <> [].
Proof.
  intros Hl E. apply Hl.
  pose proof (merge_sort_Permutation R l) as P. rewrite E in P.
  symmetry in P. apply Permutation_nil_r in P. exact P.
Qed.
End first_row.

#[export] Instance by_min_qty_desc_trans : Transitive Product.by_min_qty_desc.
Proof. intros a b c H1 H2. eapply leb_trans; eassumption. Qed.

#[export] Instance by_min_qty_desc_total : Total Product.by_min_qty_desc.
Proof. intros a b. unfold Product.by_min_qty_desc. apply leb_total. Qed.

#[export] Instance by_order_trans : Transitive Store.by_order.
Proof. intros a b c. unfold Store.by_order. lia. Qed.

#[export] Instance by_order_total : Total Store.by_order.
Proof. intros a b. unfold Store.by_order. lia. Qed.

(** ** Base price resolution *)

Section base_price.
Import Py Dec.
Variable currency : string.

Lemma get_base_price_tier p q :
  (exists o, o ∈ Product.qty_price_overrides p
             /\ leb (PriceQtyOverride.min_qty o) q = true) ->
  exists o, applicable_tier (Product.qty_price_overrides p) q o /\
            Product._get_base_price currency p q
            = Ok (Price.mk (PriceQtyOverride.price o) currency).
Proof.
  intros (o0 & Hin & Hle). unfold Product._get_base_price. cbv zeta.
  set (qs := filter _ _).
  assert (Hne : qs <> []).
  { intros E. assert (H0 : o0 ∈ qs) by (apply list_elem_of_filter; auto).
    rewrite E in H0. inversion H0. }
  destruct (merge_sort Product.by_min_qty_desc qs) as [| o rest] eqn:E.
  { exfalso. eapply merge_sort_nonempty; [exact Hne | exact E]. }
  apply merge_sort_first in E; try apply _. destruct E as [Ho Hmax].
  apply list_elem_of_filter in Ho as [Hoq Ho].
  exists o. split; [| reflexivity].
  split; [exact Ho | split; [exact Hoq |]].
  intros o' Ho' Hq'. apply (Hmax o'). apply list_elem_of_filter. auto.
Qed.

(** With no qualifying row the indexing raises [IndexError]; the
    handler is for [DoesNotExist], so the exception leaves the call. *)
Lemma get_base_price_no_tier p q :
  (forall o, o ∈ Product.qty_price_overrides p ->
             leb (PriceQtyOverride.min_qty o) q = false) ->
  Product._get_base_price currency p q = Raise IndexError.
Proof.
  intros Hno. unfold Product._get_base_price. cbv zeta.
  set (qs := filter _ _).
  assert (E : qs = []).
  { destruct qs as [| o l] eqn:E; [reflexivity | exfalso].
    assert (Ho : o ∈ qs) by (rewrite E; left).
    apply list_elem_of_filter in Ho as [Hq Ho].
    rewrite (Hno o Ho) in Hq. discriminate. }
  rewrite E. reflexivity.
Qed.

(** The offset is added in the currency of the base price: the addition
    never raises. *)
Lemma price_add_same a b :
  Price.add (Price.mk a currency) (Price.mk b currency)
  = Ok (Price.mk (Dec.add a b) currency).
Proof. unfold Price.add. cbn. rewrite String.eqb_refl. reflexivity. Qed.

Lemma price_sub_same a b :
  Price.sub (Price.mk a currency) (Price.mk b currency)
  = Ok (Price.mk (Dec.sub a b) currency).
Proof. unfold Price.sub. cbn. rewrite String.eqb_refl. reflexivity. Qed.

Lemma get_base_price_currency p q b :
  Product._get_base_price currency p q = Ok b -> Price.currency b = currency.
Proof.
  unfold Product._get_base_price. cbv zeta.
  destruct (merge_sort _ _); cbn; intros E; inversion E; reflexivity.
Qed.
End base_price.

(** ** The unit price of a variant *)

Section unit_price.
Import Py Dec.
Variable currency : string.

Lemma get_base_price_column v q b :
  variant_columns_ok v ->
  Product._get_base_price currency (Variant.product v) q = Ok b ->
  fits 12 4 (Price.amount b).
Proof.
  intros (_ & _ & Hrows & _). unfold Product._get_base_price. cbv zeta.
  set (qs := filter _ _).
  destruct (merge_sort Product.by_min_qty_desc qs) as [| o rest] eqn:E;
    cbn; intros Hb; inversion Hb; subst b; cbn.
  assert (Ho : o ∈ qs).
  { rewrite <- (merge_sort_Permutation Product.by_min_qty_desc qs), E. left. }
  apply list_elem_of_filter in Ho as [_ Ho].
  rewrite Forall_forall in Hrows. apply Hrows. exact Ho.
Qed.

(** The call, with the currency checks resolved: the base price, the
    offset added, and the discount taken off the sum when asked for and
    the product has a group. *)
Lemma get_price_for_item_unfold v d q :
  Variant.get_price_for_item currency v d q
  = (b ← Product._get_base_price currency (Variant.product v) q;
     let p := Dec.add (Price.amount b) (Variant.price_offset v) in
     match d, Product.discount (Variant.product v) with
     | true, Some g =>
         Ok (Price.mk (Dec.sub p (Dec.mul (Dec.mul p (DiscountGroup.rate g)) d0_01))
                      currency)
     | _, _ => Ok (Price.mk p currency)
     end).
Proof.
  unfold Variant.get_price_for_item. cbv zeta.
  destruct (Product._get_base_price currency (Variant.product v) q) as [b | e] eqn:E;
    [| reflexivity].
  pose proof (get_base_price_currency _ _ _ _ E) as Hc.
  destruct b as [a c]. cbn in Hc. subst c.
  cbn. rewrite price_add_same. cbn.
  destruct d, (Product.discount (Variant.product v)); try reflexivity.
  unfold DiscountGroup.get_discount_amount, Price.mul. cbn.
  apply price_sub_same.
Qed.
End unit_price.

(** [C1] With no override at or below the quantity the call does not fall
    back to the base price of the product: in the catalogue scenario at
    quantity 2 (below both tiers), and for a product with no override rows
    at all, [get_price_for_item] raises [IndexError]. *)
Theorem no_tier_raises_IndexError :
  Variant.get_price_for_item "EUR" (tiered_variant None) false (qty 2)
  = Py.Raise Py.IndexError
  /\ Variant.get_price_for_item "EUR"
       (Variant.mk (Product.mk Product.per_variant (dec4 100000) None [])
                   (dec4 5000))
       false (qty 2)
     = Py.Raise Py.IndexError.
Proof. split; vm_compute; reflexivity. Qed.

(** [C4] When some override of the product has [min_qty <= q], the base
    price is the unit price of an override that qualifies and has the
    greatest [min_qty] among those that do, and the unit price before
    discount is that price plus the offset; in the catalogue scenario
    quantity 7 gives 8.5000. *)
Theorem tier_selection :
  (forall currency v q,
     (exists o, o ∈ Product.qty_price_overrides (Variant.product v)
                /\ Dec.leb (PriceQtyOverride.min_qty o) q = true) ->
     exists o,
       applicable_tier (Product.qty_price_overrides (Variant.product v)) q o /\
       Product._get_base_price currency (Variant.product v) q
       = Py.Ok (Price.mk (PriceQtyOverride.price o) currency) /\
       Variant.get_price_for_item currency v false q
       = Py.Ok (Price.mk (Dec.add (PriceQtyOverride.price o)
                                  (Variant.price_offset v)) currency))
  /\ (forall currency,
        Variant.get_price_for_item currency (tiered_variant None) false (qty 7)
        = Py.Ok (Price.mk (dec4 85000) currency)).
Proof.
  split.
  - intros currency v q H.
    destruct (get_base_price_tier currency _ _ H) as (o & Ho & Hb).
    exists o. split; [exact Ho | split; [exact Hb |]].
    rewrite get_price_for_item_unfold, Hb. reflexivity.
  - intros currency. rewrite get_price_for_item_unfold. reflexivity.
Qed.

Lemma tier_selection_witness :
  (exists o, o ∈ Product.qty_price_overrides (Variant.product (tiered_variant None))
             /\ Dec.leb (PriceQtyOverride.min_qty o) (qty 7) = true)
  /\ exists o,
       applicable_tier
         (Product.qty_price_overrides (Variant.product (tiered_variant None)))
         (qty 7) o /\
       Product._get_base_price "EUR" (Variant.product (tiered_variant None)) (qty 7)
       = Py.Ok (Price.mk (PriceQtyOverride.price o) "EUR") /\
       Variant.get_price_for_item "EUR" (tiered_variant None) false (qty 7)
       = Py.Ok (Price.mk (Dec.add (PriceQtyOverride.price o)
                                  (Variant.price_offset (tiered_variant None)))
                         "EUR").
Proof.
  assert (H : exists o,
             o ∈ Product.qty_price_overrides (Variant.product (tiered_variant None))
             /\ Dec.leb (PriceQtyOverride.min_qty o) (qty 7) = true).
  { exists (PriceQtyOverride.mk (dec4 50000) (dec4 80000)).
    split; [left | reflexivity]. }
  split; [exact H |].
  exact (proj1 tier_selection "EUR" (tiered_variant None) (qty 7) H).
Defined.

Ltac column_check :=
  repeat match goal with
         | |- _ /\ _ => split
         | |- Forall _ _ => constructor
         | |- Dec.fits _ _ _ => unfold Dec.fits; cbn; lia
         | |- forall g, Some _ = Some g -> _ => intros ? [= <-]
         | |- forall g, None = Some g -> _ => intros ? [=]
         end.

(** [C5] Below every tier the discounted price is not computed at all.
    In the catalogue scenario with the 20% group, at quantity 2 (below both
    tiers), the discounted price would be (10.0000 + 0.5000) * (1 -
    20/100) = 8.4; [get_price_for_item] raises [IndexError] instead. *)
Theorem discounted_price_below_tiers_raises :
  Variant.get_price_for_item "EUR" (tiered_variant (Some group20)) true (qty 2)
  = Py.Raise Py.IndexError.
Proof. vm_compute. reflexivity. Qed.

(** [C6] Below every tier the undiscounted price is not returned either:
    at quantity 2, with [discount] false on a product in the 20% group, and
    with [discount] true on a product without a group, the price would be
    10.0000 + 0.5000; [get_price_for_item] raises [IndexError] in both
    cases. *)
Theorem undiscounted_price_below_tiers_raises :
  Variant.get_price_for_item "EUR" (tiered_variant (Some group20)) false (qty 2)
  = Py.Raise Py.IndexError
  /\ Variant.get_price_for_item "EUR" (tiered_variant None) true (qty 2)
     = Py.Raise Py.IndexError.
Proof. split; vm_compute; reflexivity. Qed.

(** [C9] No floor at zero: the well-formed variant [loss_variant] (unit
    price 1.0000, offset -2.0000, group rate 20.00) at quantity 1 is priced
    at (1 - 2) * (1 - 20/100) = -0.8, returned as computed. *)
Theorem negative_price_is_returned :
  exists v q res,
    variant_columns_ok v /\
    Variant.get_price_for_item "EUR" v true q = Py.Ok res /\
    (Dec.value (Price.amount res) == - (4 # 5))%Q /\
    (Dec.value (Price.amount res) < 0)%Q.
Proof.
  exists loss_variant, (qty 1). eexists. split; [| split; [| split]].
  - unfold variant_columns_ok. cbn. column_check.
  - vm_compute. reflexivity.
  - vm_compute. reflexivity.
  - vm_compute. reflexivity.
Qed.

(** ** Saving an image *)

Section image_save.
Import Py.

Lemma get_image_Ok st k r :
  Store.get_image st k = Ok r -> r ∈ Store.images st /\ ProductImage.r_pk r = k.
Proof.
  unfold Store.get_image.
  destruct (filter _ _) as [| x l] eqn:E; intros H; inversion H; subst x.
  assert (Hr : r ∈ filter (fun r => ProductImage.r_pk r = k) (Store.images st))
    by (rewrite E; left).
  apply list_elem_of_filter in Hr as [Hk Hr]. auto.
Qed.

Lemma get_image_Raise st k e :
  Store.get_image st k = Raise e ->
  e = DoesNotExist_ProductImage
  /\ forall x, x ∈ Store.images st -> ProductImage.r_pk x <> k.
Proof.
  unfold Store.get_image.
  destruct (filter _ _) as [| y l] eqn:E; [| discriminate].
  intros [= <-]. split; [reflexivity |]. intros x Hx Hk.
  assert (H : x ∈ filter (fun r => ProductImage.r_pk r = k) (Store.images st))
    by (apply list_elem_of_filter; auto).
  rewrite E in H. inversion H.
Qed.

Lemma get_image_elem st x :
  x ∈ Store.images st -> exists r, Store.get_image st (ProductImage.r_pk x) = Ok r.
Proof.
  intros Hx. destruct (Store.get_image st (ProductImage.r_pk x)) as [r | e] eqn:E;
    [eauto |].
  apply get_image_Raise in E as [_ E]. exfalso. exact (E x Hx eq_refl).
Qed.

(** The save of a new image whose product object is at hand. *)
Lemma save_with_new st pid c o product :
  exists r,
    Signals.save_with st (ProductImage.mk None pid c o) (Ok product)
    = Ok (Store.insert_row st r, r)
    /\ ProductImage.r_pk r = Store.next_pk st
    /\ ProductImage.r_product_id r = pid
    /\ ProductImage.r_order r
       = match o with
         | Some n => n
         | None => Signals.or_0 (Store.aggregate_max_order st (ProductObject.pk product))
         end.
Proof.
  destruct o as [n |]; eexists; (split; [reflexivity |]); auto.
Qed.

End image_save.

(** [C3] An image saved without an order does not get the greatest
    existing order plus one.  On a product whose only image has order 5 the
    new image gets order 5, not 6; and two images saved without an order on
    a product without images both get order 0. *)
Theorem save_repeats_greatest_order :
  (exists st r,
     Signals.save
       (Events.run empty_store [Events.Created 1 "a" (Some 5%N) false None])
       (ProductImage.mk None 1 "b" None)
     = Py.Ok (st, r)
     /\ ProductImage.r_order r = 5%N)
  /\ ProductImage.r_order
       <$> Store.images
             (Events.run empty_store
                [Events.Created 1 "a" None false None;
                 Events.Created 1 "b" None false None])
     = [0%N; 0%N].
Proof.
  split.
  - eexists _, _. split; vm_compute; reflexivity.
  - vm_compute. reflexivity.
Qed.

(** [C10] An image saved with an order keeps it: whenever the product of
    the image exists the save succeeds and the row written carries exactly
    the order the caller chose. *)
Theorem save_keeps_explicit_order st self o :
  ProductImage.order self = Some o ->
  is_Some (Store.products st !! ProductImage.product_id self) ->
  exists st' r,
    Signals.save st self = Py.Ok (st', r)
    /\ ProductImage.r_order r = o
    /\ r ∈ Store.images st'.
Proof.
  intros Ho _. destruct self as [k pid c ord]. cbn in *. subst ord.
  unfold Signals.save, Signals.save_with. cbn. unfold Store.save_base. cbn.
  destruct k as [k |].
  - destruct (Store.get_image st k) as [x | e] eqn:E.
    + eexists _, _. split; [reflexivity |]. split; [reflexivity |]. cbn.
      apply get_image_Ok in E as [Hx Hk].
      apply list_elem_of_fmap. exists x. split; [| exact Hx].
      destruct (decide (ProductImage.r_pk x = k)); [reflexivity | contradiction].
    + eexists _, _. split; [reflexivity |]. split; [reflexivity |]. cbn.
      apply elem_of_app. right. left.
  - eexists _, _. split; [reflexivity |]. split; [reflexivity |]. cbn.
    apply elem_of_app. right. left.
Qed.

Lemma save_keeps_explicit_order_witness :
  ProductImage.order (ProductImage.mk None 1 "front" (Some 0%N)) = Some 0%N
  /\ is_Some (Store.products empty_store
               !! ProductImage.product_id (ProductImage.mk None 1 "front" (Some 0%N)))
  /\ exists st' r,
       Signals.save empty_store (ProductImage.mk None 1 "front" (Some 0%N))
       = Py.Ok (st', r)
       /\ ProductImage.r_order r = 0%N
       /\ r ∈ Store.images st'.
Proof.
  assert (H : is_Some (Store.products empty_store !! 1)).
  { exists (ProductBase.mk 1 None). vm_compute. reflexivity. }
  split; [reflexivity |]. split; [exact H |].
  exact (save_keeps_explicit_order empty_store
           (ProductImage.mk None 1 "front" (Some 0%N)) 0%N eq_refl H).
Defined.

(** ** The signal handlers *)

Section handlers.
Import Py.

Lemma images_exists_true st k :
  Store.images_exists st k = true <-> Store.images_of st k <> [].
Proof.
  unfold Store.images_exists.
  destruct (Store.images_of st k); split; congruence.
Qed.

Lemma list_empty_or_elem {A} (l : list A) : l = [] \/ exists x, x ∈ l.
Proof. destruct l as [| x l]; [left; reflexivity | right; exists x; left]. Qed.

(** [images.all()[0]] on a product with images is a first row by
    [order]. *)
Lemma images_all_first st k :
  Store.images_of st k <> [] ->
  exists first,
    getitem0 (Store.images_all st k) = Ok first
    /\ first_by_order (Store.images_of st k) first.
Proof.
  intros Hne. unfold Store.images_all.
  destruct (merge_sort Store.by_order (Store.images_of st k)) as [| x l] eqn:E.
  { exfalso. eapply merge_sort_nonempty; [exact Hne | exact E]. }
  exists x. split; [reflexivity |].
  apply merge_sort_first in E; try apply _. exact E.
Qed.

Lemma assign_main_image_sets st instance p :
  ProductBase.main_image p = None ->
  Store.images_of st (ProductBase.pk p) <> [] ->
  exists first,
    first_by_order (Store.images_of st (ProductBase.pk p)) first
    /\ Signals.assign_main_image st instance (Ok p) false
       = Ok (Store.save_product st
               (ProductBase.mk (ProductBase.pk p)
                               (Some (ProductImage.r_pk first)))).
Proof.
  intros Hm Hne.
  destruct (images_all_first st _ Hne) as (first & Hget & Hfirst).
  exists first. split; [exact Hfirst |].
  unfold Signals.assign_main_image. cbn. rewrite Hm.
  rewrite (proj2 (images_exists_true st _) Hne), Hget. reflexivity.
Qed.

Lemma assign_main_image_keeps st instance p :
  is_Some (ProductBase.main_image p) ->
  Signals.assign_main_image st instance (Ok p) false = Ok st.
Proof.
  intros [m Hm]. unfold Signals.assign_main_image. cbn. rewrite Hm. reflexivity.
Qed.

Lemma assign_main_image_no_image st instance p :
  Store.images_of st (ProductBase.pk p) = [] ->
  Signals.assign_main_image st instance (Ok p) false = Ok st.
Proof.
  intros Hnil. unfold Signals.assign_main_image, Store.images_exists. cbn.
  rewrite Hnil. destruct (ProductBase.main_image p); reflexivity.
Qed.

(** Reading [product.main_image] fails only for a key that is not
    cached and has no row. *)
Lemma main_image_of_Raise st product e :
  Store.main_image_of st product = Raise e ->
  e = DoesNotExist_ProductImage
  /\ ProductObject.main_image_cached product = false
  /\ exists m, ProductBase.main_image (ProductObject.columns product) = Some m
               /\ forall x, x ∈ Store.images st -> ProductImage.r_pk x <> m.
Proof.
  unfold Store.main_image_of.
  destruct (ProductBase.main_image _) as [m |]; [| discriminate].
  destruct (ProductObject.main_image_cached product); [discriminate |].
  destruct (Store.get_image st m) as [r | e'] eqn:E; [discriminate |].
  cbn. intros [= <-]. apply get_image_Raise in E as [-> E]. eauto.
Qed.

Lemma assign_new_main_image_sets st instance product :
  Store.main_image_of st product = Ok (Some (ProductImage.r_pk instance)) ->
  Store.images_of st (ProductObject.pk product) <> [] ->
  exists first,
    first_by_order (Store.images_of st (ProductObject.pk product)) first
    /\ Signals.assign_new_main_image st instance (Ok product)
       = Ok (Store.save_product st
               (ProductBase.mk (ProductObject.pk product)
                               (Some (ProductImage.r_pk first)))).
Proof.
  intros Hm Hne.
  destruct (images_all_first st _ Hne) as (first & Hget & Hfirst).
  exists first. split; [exact Hfirst |].
  unfold Signals.assign_new_main_image. cbn. rewrite Hm. cbn.
  rewrite bool_decide_eq_true_2 by reflexivity.
  rewrite (proj2 (images_exists_true st _) Hne), Hget. reflexivity.
Qed.

Lemma assign_new_main_image_keeps st instance product main :
  Store.main_image_of st product = Ok main ->
  main <> Some (ProductImage.r_pk instance)
  \/ Store.images_of st (ProductObject.pk product) = [] ->
  Signals.assign_new_main_image st instance (Ok product) = Ok st.
Proof.
  intros Hm H. unfold Signals.assign_new_main_image. cbn. rewrite Hm. cbn.
  destruct H as [H | H].
  - rewrite bool_decide_eq_false_2 by exact H. reflexivity.
  - unfold Store.images_exists. rewrite H, andb_false_r. reflexivity.
Qed.

Lemma assign_new_main_image_raises st instance product e :
  Store.main_image_of st product = Raise e ->
  Signals.assign_new_main_image st instance (Ok product)
  = Raise DoesNotExist_ProductImage.
Proof.
  intros Hm. destruct (main_image_of_Raise _ _ _ Hm) as (-> & _).
  unfold Signals.assign_new_main_image. cbn. rewrite Hm. reflexivity.
Qed.
End handlers.



(** [C8] The deleted main image is not replaced when the handler has to
    look the product up.  In the store with images 1, 2, 3 (orders 0, 1,
    2) and main image 1, deleting image 1 through an instance that holds
    no product object leaves the product with the images 2 and 3 and a
    null [main_image]: the product is fetched after the column was
    nulled, so the comparison with the instance fails.  Through an
    instance that holds the product as it was, without the image in its
    cache, reading [main_image] raises [ProductImage.DoesNotExist], which
    the handler does not catch. *)
Theorem deleted_main_image_is_not_reassigned :
  Store.products
    (Events.step three_images
       (Events.Deleted (ProductImage.mkRow 1 1 "a" 0) None)) !! 1
  = Some (ProductBase.mk 1 None)
  /\ ProductImage.r_pk
       <$> Store.images_of
             (Events.step three_images
                (Events.Deleted (ProductImage.mkRow 1 1 "a" 0) None)) 1
     = [2; 3]
  /\ snd (Events.handle three_images
            (Events.Deleted (ProductImage.mkRow 1 1 "a" 0) None))
     = Py.Ok tt
  /\ Signals.assign_new_main_image (Store.delete_row three_images 1)
       (ProductImage.mkRow 1 1 "a" 0)
       (Py.Ok (ProductObject.mk (ProductBase.mk 1 (Some 1)) false))
     = Py.Raise Py.DoesNotExist_ProductImage.
Proof. repeat split; vm_compute; reflexivity. Qed.

(** ** The main image along image events *)

Section invariant.
Import Py.

Lemma NoDup_pk_filter (P : ProductImage.row -> Prop) `{!forall x, Decision (P x)} l :
  NoDup (ProductImage.r_pk <$> l) ->
  NoDup (ProductImage.r_pk <$> filter P l).
Proof.
  induction l as [| x l IH]; [intros; constructor |].
  rewrite fmap_cons. intros [Hx Hnd]%NoDup_cons.
  destruct (decide (P x)) as [HP | HP].
  - rewrite filter_cons_True by exact HP. rewrite fmap_cons.
    apply NoDup_cons. split; [| apply IH, Hnd].
    intros (y & Ey & Hy)%list_elem_of_fmap.
    apply list_elem_of_filter in Hy as [_ Hy].
    apply Hx. apply list_elem_of_fmap. eauto.
  - rewrite filter_cons_False by exact HP. apply IH, Hnd.
Qed.

Lemma images_of_app ps l r n k :
  Store.images_of (Store.mk ps (l ++ [r]) n) k
  = Store.images_of (Store.mk ps l n) k
    ++ (if decide (ProductImage.r_product_id r = k) then [r] else []).
Proof.
  unfold Store.images_of. cbn [Store.images]. rewrite filter_app. reflexivity.
Qed.

Lemma images_of_insert_row st r k x :
  x ∈ Store.images_of st k -> x ∈ Store.images_of (Store.insert_row st r) k.
Proof.
  unfold Store.insert_row. rewrite images_of_app. intros Hx.
  apply elem_of_app. left. exact Hx.
Qed.

Lemma images_of_insert_row_new st r :
  r ∈ Store.images_of (Store.insert_row st r) (ProductImage.r_product_id r).
Proof.
  unfold Store.insert_row. rewrite images_of_app.
  rewrite decide_True by reflexivity. apply elem_of_app. right. left.
Qed.

Lemma images_of_delete_row st k j x :
  x ∈ Store.images_of (Store.delete_row st k) j
  <-> x ∈ Store.images_of st j /\ ProductImage.r_pk x <> k.
Proof.
  unfold Store.images_of, Store.delete_row. cbn [Store.images].
  rewrite !list_elem_of_filter. tauto.
Qed.

Lemma images_of_elem st j x :
  x ∈ Store.images_of st j
  <-> ProductImage.r_product_id x = j /\ x ∈ Store.images st.
Proof. unfold Store.images_of. rewrite list_elem_of_filter. tauto. Qed.

Lemma inserted_wf st r :
  store_wf st -> ProductImage.r_pk r = Store.next_pk st ->
  store_wf (Store.insert_row st r).
Proof.
  intros (Hnd & Hlt & Hpk) Hr. unfold Store.insert_row. split; [| split]; cbn.
  - rewrite fmap_app. apply NoDup_app. split; [exact Hnd |]. split.
    + intros k (x & -> & Hx)%list_elem_of_fmap Hk.
      apply list_elem_of_singleton in Hk.
      rewrite Forall_forall in Hlt. specialize (Hlt x Hx). cbn in Hk. lia.
    + apply NoDup_singleton.
  - apply Forall_app. split.
    + eapply Forall_impl; [exact Hlt |]. cbn. intros; lia.
    + constructor; [lia | constructor].
  - exact Hpk.
Qed.

Lemma save_product_wf st p :
  store_wf st -> store_wf (Store.save_product st p).
Proof.
  intros (Hnd & Hlt & Hpk). split; [| split]; cbn; try assumption.
  intros k q [[<- <-] | [_ Hq]]%lookup_insert_Some; [reflexivity | eauto].
Qed.

Lemma delete_row_wf st k : store_wf st -> store_wf (Store.delete_row st k).
Proof.
  intros (Hnd & Hlt & Hpk). split; [| split]; cbn.
  - apply NoDup_pk_filter; exact Hnd.
  - rewrite Forall_forall in *. intros x [_ Hx]%list_elem_of_filter. auto.
  - intros j q. rewrite lookup_fmap.
    destruct (Store.products st !! j) as [q0 |] eqn:E; cbn; [| discriminate].
    intros [= <-]. unfold Store.set_null.
    destruct (decide _); cbn; eauto.
Qed.

Lemma written_wf st st' : written st st' -> store_wf st -> store_wf st'.
Proof.
  induction 1; intros Hwf;
    auto using inserted_wf, delete_row_wf, save_product_wf.
Qed.

(** Each kind of write keeps the main images sound. *)
Lemma insert_row_sound st r :
  main_image_sound st -> main_image_sound (Store.insert_row st r).
Proof.
  intros Hs k p m Hp Hm. destruct (Hs k p m Hp Hm) as (x & Hx & E).
  exists x. split; [apply images_of_insert_row, Hx | exact E].
Qed.

Lemma delete_row_sound st k :
  main_image_sound st -> main_image_sound (Store.delete_row st k).
Proof.
  intros Hs j q m. cbn. rewrite lookup_fmap.
  destruct (Store.products st !! j) as [q0 |] eqn:E; cbn; [| discriminate].
  intros [= <-]. unfold Store.set_null.
  destruct (decide (ProductBase.main_image q0 = Some k)) as [Hk | Hk];
    [discriminate |].
  intros Hm. destruct (Hs j q0 m E Hm) as (x & Hx & Ex).
  exists x. split; [| exact Ex].
  apply images_of_delete_row. split; [exact Hx | congruence].
Qed.

Lemma save_product_sound st j first :
  main_image_sound st -> first ∈ Store.images_of st j ->
  main_image_sound
    (Store.save_product st (ProductBase.mk j (Some (ProductImage.r_pk first)))).
Proof.
  intros Hs Hfirst k p m Hp Hm. cbn in Hp.
  change (exists r, r ∈ Store.images_of st k /\ ProductImage.r_pk r = m).
  apply lookup_insert_Some in Hp as [[<- <-] | [_ Hp]].
  - cbn in Hm. injection Hm as <-. eauto.
  - eauto.
Qed.

Lemma written_sound st st' :
  written st st' -> main_image_sound st -> main_image_sound st'.
Proof.
  induction 1; intros Hs;
    auto using insert_row_sound, delete_row_sound, save_product_sound.
Qed.

(** What the handlers write. *)
Lemma assign_main_image_written st instance instance_product raw st' :
  Signals.assign_main_image st instance instance_product raw = Ok st' ->
  written st st'.
Proof.
  destruct raw; [intros [= <-]; constructor |].
  destruct instance_product as [p | e]; [| discriminate].
  destruct (ProductBase.main_image p) as [m |] eqn:Hm.
  - rewrite assign_main_image_keeps by (rewrite Hm; eauto).
    intros [= <-]. constructor.
  - destruct (list_empty_or_elem (Store.images_of st (ProductBase.pk p)))
      as [Hnil | [x Hx]].
    + rewrite assign_main_image_no_image by exact Hnil. intros [= <-]. constructor.
    + destruct (assign_main_image_sets st instance p Hm) as (f & [Hf _] & ->).
      { intros E. rewrite E in Hx. inversion Hx. }
      intros [= <-]. apply written_save; [constructor | exact Hf].
Qed.

Lemma assign_new_main_image_written st instance instance_product st' :
  Signals.assign_new_main_image st instance instance_product = Ok st' ->
  written st st'.
Proof.
  destruct instance_product as [product | e].
  2: { unfold Signals.assign_new_main_image. cbn.
       destruct e; cbn; intros [= <-]; constructor. }
  destruct (Store.main_image_of st product) as [main |] eqn:Hm.
  2: { rewrite (assign_new_main_image_raises _ _ _ _ Hm). discriminate. }
  destruct (decide (main = Some (ProductImage.r_pk instance))) as [-> | Hne].
  - destruct (list_empty_or_elem (Store.images_of st (ProductObject.pk product)))
      as [Hnil | [x Hx]].
    + rewrite (assign_new_main_image_keeps _ _ _ _ Hm) by (right; exact Hnil).
      intros [= <-]. constructor.
    + destruct (assign_new_main_image_sets st instance product Hm)
        as (f & [Hf _] & ->).
      { intros E. rewrite E in Hx. inversion Hx. }
      intros [= <-]. apply written_save; [constructor | exact Hf].
  - rewrite (assign_new_main_image_keeps _ _ _ _ Hm) by (left; exact Hne).
    intros [= <-]. constructor.
Qed.

Lemma send_post_save_written st instance instance_product raw st' :
  Events.send_post_save st instance instance_product raw = Ok st' ->
  written st st'.
Proof.
  unfold Events.send_post_save. destruct raw.
  - apply assign_main_image_written.
  - destruct instance_product as [product | e]; [| discriminate].
    cbv beta iota delta [mbind result_bind Py.bind].
    destruct (Store.main_image_of st product); [| discriminate].
    apply assign_main_image_written.
Qed.

(** The save of a new image writes its row or raises. *)
Lemma save_new_cases st pid c o raw self_product :
  (exists e, (if raw : bool then Store.save_base st (ProductImage.mk None pid c o)
              else Signals.save_with st (ProductImage.mk None pid c o) self_product)
             = Raise e)
  \/ exists r,
       (if raw then Store.save_base st (ProductImage.mk None pid c o)
        else Signals.save_with st (ProductImage.mk None pid c o) self_product)
       = Ok (Store.insert_row st r, r)
       /\ ProductImage.r_pk r = Store.next_pk st
       /\ ProductImage.r_product_id r = pid.
Proof.
  destruct raw.
  - destruct o as [n |]; [right | left; eexists; reflexivity].
    eexists. split; [reflexivity |]. auto.
  - destruct self_product as [product | e].
    + right. destruct (save_with_new st pid c o product) as (r & E & H1 & H2 & _).
      eauto.
    + destruct o as [n |]; [right | left; eexists; reflexivity].
      eexists. split; [reflexivity |]. auto.
Qed.

Lemma step_written st ev : written st (Events.step st ev).
Proof.
  destruct ev as [pid c o raw held | instance held];
    unfold Events.step, Events.handle.
  - unfold Events.on_image_created. cbv zeta.
    destruct (save_new_cases st pid c o raw (Events.instance_product st pid held))
      as [[e ->] | (r & -> & Hr & _)]; [constructor |].
    destruct (Events.send_post_save _ _ _ _) as [st2 | e] eqn:E; cbn.
    + apply send_post_save_written in E.
      clear -E Hr. induction E.
      * apply written_insert; [constructor | exact Hr].
      * apply written_insert; assumption.
      * apply written_delete; assumption.
      * apply written_save; assumption.
    + apply written_insert; [constructor | exact Hr].
  - unfold Events.on_image_deleted. cbv zeta.
    destruct (Signals.assign_new_main_image _ _ _) as [st2 | e] eqn:E; cbn;
      [| constructor].
    apply assign_new_main_image_written in E.
    induction E.
    + apply written_delete. constructor.
    + apply written_insert; assumption.
    + apply written_delete; assumption.
    + apply written_save; assumption.
Qed.

Lemma written_trans st st1 st2 : written st st1 -> written st1 st2 -> written st st2.
Proof.
  intros H1 H2. induction H2;
    [exact H1 | apply written_insert | apply written_delete | apply written_save];
    assumption.
Qed.

Lemma run_written evs : forall st, written st (Events.run st evs).
Proof.
  induction evs as [| ev evs IH]; intros st; [constructor |].
  cbn. eapply written_trans; [apply step_written | apply IH].
Qed.

Lemma empty_store_wf : store_wf empty_store.
Proof.
  split; [constructor | split; [constructor |]].
  intros k p Hp. cbn in Hp. apply lookup_singleton_Some in Hp as [<- <-].
  reflexivity.
Qed.


Lemma empty_store_sound : main_image_sound empty_store.
Proof.
  intros k p m Hp. cbn in Hp. apply lookup_singleton_Some in Hp as [<- <-].
  discriminate.
Qed.
End invariant.




(** After a deletion a later creation through [save] may assign nothing:
    the instance of the second image holds the product object that still
    names the deleted first image, so the product ends with an image and
    a null [main_image]. *)
Example stale_object_leaves_main_image_null :
  Store.products
    (Events.run empty_store
       [Events.Created 1 "a" None false None;
        Events.Deleted (ProductImage.mkRow 1 1 "a" 0)
          (Some (ProductObject.mk (ProductBase.mk 1 (Some 1)) true));
        Events.Created 1 "b" None false
          (Some (ProductObject.mk (ProductBase.mk 1 (Some 1)) true))]) !! 1
  = Some (ProductBase.mk 1 None)
  /\ ProductImage.r_pk
       <$> Store.images
             (Events.run empty_store
                [Events.Created 1 "a" None false None;
                 Events.Deleted (ProductImage.mkRow 1 1 "a" 0)
                   (Some (ProductObject.mk (ProductBase.mk 1 (Some 1)) true));
                 Events.Created 1 "b" None false
                   (Some (ProductObject.mk (ProductBase.mk 1 (Some 1)) true))])
     = [2].
Proof. split; vm_compute; reflexivity. Qed.
(** * Further properties of the pricing code *)

Section pricing_more.
Import Py Dec.
Variable currency : string.

(** Either some override qualifies for the quantity or none does. *)
Lemma qualifying_or_none (rows : list PriceQtyOverride.t) q :
  (exists o, o ∈ rows /\ leb (PriceQtyOverride.min_qty o) q = true)
  \/ (forall o, o ∈ rows -> leb (PriceQtyOverride.min_qty o) q = false).
Proof.
  induction rows as [| x rows IH].
  - right. intros o Ho. inversion Ho.
  - destruct (leb (PriceQtyOverride.min_qty x) q) eqn:E.
    + left. exists x. split; [left | exact E].
    + destruct IH as [(o & Ho & Hq) | Hnone].
      * left. exists o. split; [right; exact Ho | exact Hq].
      * right. intros o [-> | Ho]%elem_of_cons; auto.
Qed.

Lemma applicable_tier_unique rows q o o' :
  applicable_tier rows q o -> applicable_tier rows q o' ->
  (value (PriceQtyOverride.min_qty o) == value (PriceQtyOverride.min_qty o'))%Q.
Proof.
  intros (Ho & Hq & Hmax) (Ho' & Hq' & Hmax').
  apply Qle_antisym; apply leb_le; auto.
Qed.
End pricing_more.

(** [X1] The discount amount of a group on a price whose amount fits the
    price column is the price times the rate divided by 100, computed
    without rounding, in the currency of the price. *)
Theorem get_discount_amount_exact g p :
  Dec.fits 12 4 (Price.amount p) ->
  Dec.fits 4 2 (DiscountGroup.rate g) ->
  (Dec.value (Price.amount (DiscountGroup.get_discount_amount g p))
   == Dec.value (Price.amount p) * Dec.value (DiscountGroup.rate g) / 100)%Q
  /\ Price.currency (DiscountGroup.get_discount_amount g p) = Price.currency p.
Proof.
  intros Hp Hr. split; [| reflexivity].
  pose proof (coef_bound 12 4 _ Hp) as Bp. pose proof (coef_bound 4 2 _ Hr) as Br.
  assert (Hpr : Z.abs (Dec.coef (Price.amount p) * Dec.coef (DiscountGroup.rate g))
                < 10 ^ 16).
  { rewrite Z.abs_mul. change (10 ^ 16) with (10 ^ 12 * 10 ^ 4).
    apply Z.mul_lt_mono_nonneg; lia. }
  assert (H16 : 10 ^ 16 < 10 ^ Dec.prec) by (vm_compute; reflexivity).
  assert (Hm : Dec.mul (Price.amount p) (DiscountGroup.rate g)
               = Dec.mkDec (Dec.coef (Price.amount p) * Dec.coef (DiscountGroup.rate g))
                           (Dec.expo (Price.amount p) + Dec.expo (DiscountGroup.rate g))).
  { unfold Dec.mul. apply fix_small. cbn [Dec.coef]. lia. }
  unfold DiscountGroup.get_discount_amount, Price.mul. cbn [Price.amount].
  rewrite value_mul.
  - rewrite value_mul by lia. unfold Dec.d0_01, Dec.value at 3. cbn [Dec.coef Dec.expo].
    change (10 ^ (-2))%Q with (1 # 100)%Q. field.
  - rewrite Hm. unfold Dec.d0_01. cbn [Dec.coef]. rewrite Z.mul_1_r. lia.
Qed.

Lemma get_discount_amount_exact_witness :
  Dec.fits 12 4 (Price.amount (Price.mk (dec4 85000) "EUR"))
  /\ Dec.fits 4 2 (DiscountGroup.rate group20)
  /\ (Dec.value (Price.amount
                   (DiscountGroup.get_discount_amount group20
                      (Price.mk (dec4 85000) "EUR")))
      == Dec.value (Price.amount (Price.mk (dec4 85000) "EUR"))
         * Dec.value (DiscountGroup.rate group20) / 100)%Q
  /\ Price.currency (DiscountGroup.get_discount_amount group20
                       (Price.mk (dec4 85000) "EUR"))
     = Price.currency (Price.mk (dec4 85000) "EUR").
Proof.
  assert (H1 : Dec.fits 12 4 (Price.amount (Price.mk (dec4 85000) "EUR")))
    by (unfold Dec.fits; cbn; lia).
  assert (H2 : Dec.fits 4 2 (DiscountGroup.rate group20))
    by (unfold Dec.fits; cbn; lia).
  split; [exact H1 |]. split; [exact H2 |].
  exact (get_discount_amount_exact group20 (Price.mk (dec4 85000) "EUR") H1 H2).
Defined.

(** [X2] The base price of the product itself never reaches the result of
    [_get_base_price]: two products with the same override rows resolve
    every quantity alike, whatever their own [price], [qty_mode] and
    [discount]. *)
Theorem get_base_price_ignores_product_price currency p p' q :
  Product.qty_price_overrides p = Product.qty_price_overrides p' ->
  Product._get_base_price currency p q = Product._get_base_price currency p' q.
Proof.
  intros E. unfold Product._get_base_price. cbv zeta. rewrite E.
  destruct (merge_sort _ _); reflexivity.
Qed.

Lemma get_base_price_ignores_product_price_witness :
  Product.qty_price_overrides (tiered_product None)
  = Product.qty_price_overrides
      (Product.mk Product.per_product (dec4 1) (Some group20)
         (Product.qty_price_overrides (tiered_product None)))
  /\ Product._get_base_price "EUR" (tiered_product None) (qty 2)
     = Product._get_base_price "EUR"
         (Product.mk Product.per_product (dec4 1) (Some group20)
            (Product.qty_price_overrides (tiered_product None))) (qty 2).
Proof.
  split; [reflexivity |].
  exact (get_base_price_ignores_product_price "EUR" (tiered_product None)
           (Product.mk Product.per_product (dec4 1) (Some group20)
              (Product.qty_price_overrides (tiered_product None)))
           (qty 2) eq_refl).
Defined.

(** [X3] Tier selection is monotone in the quantity: when a quantity
    resolves to a tier, every greater quantity resolves too, and to a tier
    whose [min_qty] is at least as great. *)
Theorem tier_selection_monotone currency p q q' :
  Dec.leb q q' = true ->
  (exists o, o ∈ Product.qty_price_overrides p
             /\ Dec.leb (PriceQtyOverride.min_qty o) q = true) ->
  exists o o',
    applicable_tier (Product.qty_price_overrides p) q o
    /\ applicable_tier (Product.qty_price_overrides p) q' o'
    /\ Product._get_base_price currency p q
       = Py.Ok (Price.mk (PriceQtyOverride.price o) currency)
    /\ Product._get_base_price currency p q'
       = Py.Ok (Price.mk (PriceQtyOverride.price o') currency)
    /\ Dec.leb (PriceQtyOverride.min_qty o) (PriceQtyOverride.min_qty o') = true.
Proof.
  intros Hqq H.
  destruct (get_base_price_tier currency p q H) as (o & Ho & Hb).
  assert (H' : exists x, x ∈ Product.qty_price_overrides p
                         /\ Dec.leb (PriceQtyOverride.min_qty x) q' = true).
  { destruct Ho as (Hin & Hq & _). exists o. split; [exact Hin |].
    eapply leb_trans; eassumption. }
  destruct (get_base_price_tier currency p q' H') as (o' & Ho' & Hb').
  exists o, o'.
  split; [exact Ho |]. split; [exact Ho' |]. split; [exact Hb |].
  split; [exact Hb' |].
  destruct Ho as (Hin & Hq & _), Ho' as (_ & _ & Hmax').
  apply Hmax'; [exact Hin | eapply leb_trans; eassumption].
Qed.

Lemma tier_selection_monotone_witness :
  Dec.leb (qty 7) (qty 12) = true
  /\ (exists o, o ∈ Product.qty_price_overrides (tiered_product None)
                /\ Dec.leb (PriceQtyOverride.min_qty o) (qty 7) = true)
  /\ exists o o',
       applicable_tier (Product.qty_price_overrides (tiered_product None)) (qty 7) o
       /\ applicable_tier (Product.qty_price_overrides (tiered_product None)) (qty 12) o'
       /\ Product._get_base_price "EUR" (tiered_product None) (qty 7)
          = Py.Ok (Price.mk (PriceQtyOverride.price o) "EUR")
       /\ Product._get_base_price "EUR" (tiered_product None) (qty 12)
          = Py.Ok (Price.mk (PriceQtyOverride.price o') "EUR")
       /\ Dec.leb (PriceQtyOverride.min_qty o) (PriceQtyOverride.min_qty o') = true.
Proof.
  assert (H : exists o, o ∈ Product.qty_price_overrides (tiered_product None)
                        /\ Dec.leb (PriceQtyOverride.min_qty o) (qty 7) = true).
  { exists (PriceQtyOverride.mk (dec4 50000) (dec4 80000)).
    split; [left | reflexivity]. }
  split; [reflexivity |]. split; [exact H |].
  exact (tier_selection_monotone "EUR" (tiered_product None) (qty 7) (qty 12)
           eq_refl H).
Defined.

(** [X4] With [min_qty] unique among the overrides of a product, the base
    price does not depend on the order in which the rows are stored. *)
Theorem get_base_price_row_order currency p p' q :
  Product.qty_price_overrides p ≡ₚ Product.qty_price_overrides p' ->
  (forall o o', o ∈ Product.qty_price_overrides p ->
                o' ∈ Product.qty_price_overrides p ->
                (Dec.value (PriceQtyOverride.min_qty o)
                 == Dec.value (PriceQtyOverride.min_qty o'))%Q ->
                o = o') ->
  Product._get_base_price currency p q = Product._get_base_price currency p' q.
Proof.
  intros Hperm Hdist.
  destruct (qualifying_or_none (Product.qty_price_overrides p) q)
    as [H | Hnone].
  - destruct (get_base_price_tier currency p q H) as (o & Ho & ->).
    assert (H' : exists x, x ∈ Product.qty_price_overrides p'
                           /\ Dec.leb (PriceQtyOverride.min_qty x) q = true).
    { destruct H as (x & Hx & Hq). exists x. split; [| exact Hq].
      rewrite <- Hperm. exact Hx. }
    destruct (get_base_price_tier currency p' q H') as (o' & Ho' & ->).
    assert (Ho'p : applicable_tier (Product.qty_price_overrides p) q o').
    { destruct Ho' as (Hin & Hq & Hmax). split; [rewrite Hperm; exact Hin |].
      split; [exact Hq |]. intros x Hx. apply Hmax. rewrite <- Hperm. exact Hx. }
    assert (o = o') as ->; [| reflexivity].
    apply Hdist; [apply Ho | apply Ho'p |].
    eapply applicable_tier_unique; eassumption.
  - rewrite !get_base_price_no_tier; [reflexivity | | exact Hnone].
    intros o Ho. apply Hnone. rewrite Hperm. exact Ho.
Qed.

Lemma get_base_price_row_order_witness :
  Product.qty_price_overrides (tiered_product None)
  ≡ₚ Product.qty_price_overrides
       (Product.mk Product.per_variant (dec4 100000) None
          (reverse (Product.qty_price_overrides (tiered_product None))))
  /\ Product._get_base_price "EUR" (tiered_product None) (qty 12)
     = Product._get_base_price "EUR"
         (Product.mk Product.per_variant (dec4 100000) None
            (reverse (Product.qty_price_overrides (tiered_product None))))
         (qty 12).
Proof.
  assert (Hperm : Product.qty_price_overrides (tiered_product None)
                  ≡ₚ Product.qty_price_overrides
                       (Product.mk Product.per_variant (dec4 100000) None
                          (reverse (Product.qty_price_overrides (tiered_product None))))).
  { cbn. apply perm_swap. }
  split; [exact Hperm |].
  apply (get_base_price_row_order "EUR" (tiered_product None) _ (qty 12) Hperm).
  cbn. intros o o' Ho Ho' E.
  apply elem_of_cons in Ho as [-> | Ho]; [| apply list_elem_of_singleton in Ho as ->];
    (apply elem_of_cons in Ho' as [-> | Ho'];
     [| apply list_elem_of_singleton in Ho' as ->]);
    try reflexivity; vm_compute in E; discriminate.
Defined.

(** [X5] Only the numeric value of the quantity matters: 7 and 7.0000
    give the same price, or the same exception. *)
Theorem get_price_for_item_quantity_value currency v d q q' :
  (Dec.value q == Dec.value q')%Q ->
  Variant.get_price_for_item currency v d q
  = Variant.get_price_for_item currency v d q'.
Proof.
  intros E. rewrite !get_price_for_item_unfold.
  assert (Hb : Product._get_base_price currency (Variant.product v) q
               = Product._get_base_price currency (Variant.product v) q').
  { unfold Product._get_base_price. cbv zeta.
    rewrite (list_filter_iff
               (fun o => Dec.leb (PriceQtyOverride.min_qty o) q = true)
               (fun o => Dec.leb (PriceQtyOverride.min_qty o) q' = true));
      [reflexivity |].
    intros o. unfold Dec.leb. rewrite E. reflexivity. }
  rewrite Hb. reflexivity.
Qed.

Lemma get_price_for_item_quantity_value_witness :
  (Dec.value (qty 7) == Dec.value (dec4 70000))%Q
  /\ Variant.get_price_for_item "EUR" (tiered_variant (Some group20)) true (qty 7)
     = Variant.get_price_for_item "EUR" (tiered_variant (Some group20)) true
         (dec4 70000).
Proof.
  assert (E : (Dec.value (qty 7) == Dec.value (dec4 70000))%Q)
    by (vm_compute; reflexivity).
  split; [exact E |].
  exact (get_price_for_item_quantity_value "EUR" (tiered_variant (Some group20))
           true (qty 7) (dec4 70000) E).
Defined.


Section discount_bounds.
Import Dec.

Lemma rate_below_100 r : fits 4 2 r -> (value r < 100)%Q.
Proof.
  destruct r as [c e]. unfold fits. cbn [coef expo]. intros [He Hc].
  assert (Hcases : e = -2 \/ e = -1 \/ e = 0) by lia.
  change (10 ^ 4) with 10000 in Hc. unfold value. cbn [coef expo].
  destruct Hcases as [-> | [-> | ->]].
  - change (10 ^ (-2 + 2)) with 1 in Hc. change (10 ^ (-2))%Q with (1 # 100)%Q.
    unfold Qlt, Qmult, inject_Z. cbn [Qnum Qden]. lia.
  - change (10 ^ (-1 + 2)) with 10 in Hc. change (10 ^ (-1))%Q with (1 # 10)%Q.
    unfold Qlt, Qmult, inject_Z. cbn [Qnum Qden]. lia.
  - change (10 ^ (0 + 2)) with 100 in Hc. change (10 ^ 0)%Q with 1%Q.
    unfold Qlt, Qmult, inject_Z. cbn [Qnum Qden]. lia.
Qed.
End discount_bounds.

(** [X7] A discount at a rate that is not negative never raises the price
    and never turns a price that is not negative into a negative one: with
    base price plus offset at least 0, the discounted price lies between 0
    and the undiscounted price. *)
Theorem discount_within_bounds currency v q g b res :
  Product.discount (Variant.product v) = Some g ->
  variant_columns_ok v ->
  Product._get_base_price currency (Variant.product v) q = Py.Ok b ->
  Variant.get_price_for_item currency v true q = Py.Ok res ->
  (0 <= Dec.value (DiscountGroup.rate g))%Q ->
  (0 <= Dec.value (Price.amount b) + Dec.value (Variant.price_offset v))%Q ->
  (0 <= Dec.value (Price.amount res)
   /\ Dec.value (Price.amount res)
      <= Dec.value (Price.amount b) + Dec.value (Variant.price_offset v))%Q.
Proof.
  intros Hg Hcols E Hres Hrate Hsum.
  pose proof (get_base_price_column currency v q b Hcols E) as Hb.
  destruct Hcols as (Hoff & _ & _ & Hr). specialize (Hr g Hg).
  rewrite get_price_for_item_unfold, E in Hres. cbn in Hres. rewrite Hg in Hres.
  injection Hres as <-. cbn [Price.amount].
  rewrite discount_exact;
    [| apply add_coef; assumption | apply add_expo; assumption | exact Hr].
  rewrite add_value by assumption.
  pose proof (rate_below_100 _ Hr) as H100.
  set (s := (Dec.value (Price.amount b) + Dec.value (Variant.price_offset v))%Q) in *.
  set (r := Dec.value (DiscountGroup.rate g)) in *.
  assert (Ht : (0 <= 1 - r / 100 /\ 1 - r / 100 <= 1)%Q).
  { unfold Qdiv. change (/ 100)%Q with (1 # 100)%Q. split; lra. }
  destruct Ht as [Ht0 Ht1]. set (t := (1 - r / 100)%Q) in *. split; nra.
Qed.

Lemma discount_within_bounds_witness :
  exists res,
    Variant.get_price_for_item "EUR" (tiered_variant (Some group20)) true (qty 7)
    = Py.Ok res
    /\ (0 <= Dec.value (Price.amount res)
        /\ Dec.value (Price.amount res)
           <= Dec.value (Price.amount (Price.mk (dec4 80000) "EUR"))
              + Dec.value (Variant.price_offset (tiered_variant (Some group20))))%Q.
Proof.
  assert (Hc : variant_columns_ok (tiered_variant (Some group20))).
  { unfold variant_columns_ok. cbn. column_check. }
  eexists. split; [vm_compute; reflexivity |].
  apply (discount_within_bounds "EUR" (tiered_variant (Some group20)) (qty 7)
           group20 (Price.mk (dec4 80000) "EUR") _ eq_refl Hc).
  - vm_compute. reflexivity.
  - vm_compute. reflexivity.
  - vm_compute. discriminate.
  - vm_compute. discriminate.
Defined.

(** [X19] Where a tier applies, the discounted price is exact: for a
    variant with column-sized values whose product is in a group of rate
    [r], at a quantity some override qualifies for, [get_price_for_item]
    returns the unit price of the applicable tier plus the offset, times
    [1 - r/100], without rounding and in the configured currency. *)
Theorem discounted_price_exact currency v q g :
  Product.discount (Variant.product v) = Some g ->
  variant_columns_ok v ->
  (exists o, o ∈ Product.qty_price_overrides (Variant.product v)
             /\ Dec.leb (PriceQtyOverride.min_qty o) q = true) ->
  exists o res,
    applicable_tier (Product.qty_price_overrides (Variant.product v)) q o
    /\ Variant.get_price_for_item currency v true q = Py.Ok res
    /\ Price.currency res = currency
    /\ (Dec.value (Price.amount res)
        == (Dec.value (PriceQtyOverride.price o)
            + Dec.value (Variant.price_offset v))
           * (1 - Dec.value (DiscountGroup.rate g) / 100))%Q.
Proof.
  intros Hg Hcols H.
  destruct (get_base_price_tier currency _ q H) as (o & Ho & Hb).
  pose proof (get_base_price_column currency v q _ Hcols Hb) as Hfit.
  destruct Hcols as (Hoff & _ & _ & Hrate). specialize (Hrate g Hg).
  exists o. eexists. split; [exact Ho |].
  rewrite get_price_for_item_unfold, Hb. cbn. rewrite Hg.
  split; [reflexivity |]. split; [reflexivity |]. cbn [Price.amount] in *.
  rewrite discount_exact;
    [| apply add_coef; assumption | apply add_expo; assumption | exact Hrate].
  rewrite add_value by assumption. reflexivity.
Qed.

Lemma discounted_price_exact_witness :
  (exists o, o ∈ Product.qty_price_overrides
                   (Variant.product (tiered_variant (Some group20)))
             /\ Dec.leb (PriceQtyOverride.min_qty o) (qty 7) = true)
  /\ exists o res,
       applicable_tier
         (Product.qty_price_overrides
            (Variant.product (tiered_variant (Some group20)))) (qty 7) o
       /\ Variant.get_price_for_item "EUR" (tiered_variant (Some group20)) true (qty 7)
          = Py.Ok res
       /\ Price.currency res = "EUR"
       /\ (Dec.value (Price.amount res)
           == (Dec.value (PriceQtyOverride.price o)
               + Dec.value (Variant.price_offset (tiered_variant (Some group20))))
              * (1 - Dec.value (DiscountGroup.rate group20) / 100))%Q.
Proof.
  assert (Hc : variant_columns_ok (tiered_variant (Some group20))).
  { unfold variant_columns_ok. cbn. column_check. }
  assert (H : exists o, o ∈ Product.qty_price_overrides
                              (Variant.product (tiered_variant (Some group20)))
                        /\ Dec.leb (PriceQtyOverride.min_qty o) (qty 7) = true).
  { exists (PriceQtyOverride.mk (dec4 50000) (dec4 80000)).
    split; [left | reflexivity]. }
  split; [exact H |].
  exact (discounted_price_exact "EUR" (tiered_variant (Some group20)) (qty 7)
           group20 eq_refl Hc H).
Defined.

(** * Further properties of the image code *)

Section images_more.
Import Py.



(** [instance.product] of an instance that holds nothing stale has the
    columns of the stored row. *)
Lemma instance_product_current st pid held p :
  Store.products st !! pid = Some p ->
  holds_current st pid held ->
  exists cached,
    Events.instance_product st pid held = Ok (ProductObject.mk p cached).
Proof.
  intros Hp Hc. destruct held as [[p' cached] |]; cbn in *.
  - rewrite Hp in Hc. injection Hc as ->. eauto.
  - unfold Store.fetch_product. rewrite Hp. eauto.
Qed.

(** A creation through [save] writes the row and sends the signal with
    the product. *)
Lemma step_created st pid c o held p :
  Store.products st !! pid = Some p ->
  holds_current st pid held ->
  exists r cached,
    ProductImage.r_pk r = Store.next_pk st
    /\ ProductImage.r_product_id r = pid
    /\ Events.handle st (Events.Created pid c o false held)
       = match Events.send_post_save (Store.insert_row st r) r
                 (Ok (ProductObject.mk p cached)) false with
         | Ok st2 => (st2, Ok tt)
         | Raise e => (Store.insert_row st r, Raise e)
         end.
Proof.
  intros Hp Hc.
  destruct (instance_product_current st pid held p Hp Hc) as [cached Hip].
  destruct (save_with_new st pid c o (ProductObject.mk p cached))
    as (r & E & H1 & H2 & _).
  exists r, cached. split; [exact H1 |]. split; [exact H2 |].
  unfold Events.handle, Events.on_image_created. cbv zeta.
  rewrite Hip, E.
  assert (Hip1 : Events.instance_product (Store.insert_row st r) pid held
                 = Ok (ProductObject.mk p cached)).
  { destruct held as [product |]; [exact Hip |].
    cbn in *. unfold Store.fetch_product in *. exact Hip. }
  rewrite Hip1. reflexivity.
Qed.

(** The signal for a product whose [main_image] is null reaches the
    handler. *)
Lemma send_post_save_null st instance p cached :
  ProductBase.main_image p = None ->
  Events.send_post_save st instance (Ok (ProductObject.mk p cached)) false
  = Signals.assign_main_image st instance (Ok p) false.
Proof.
  intros Hm. unfold Events.send_post_save, Store.main_image_of. cbn.
  rewrite Hm. reflexivity.
Qed.

(** The signal for a product that has a main image writes nothing. *)
Lemma send_post_save_set st instance p cached :
  is_Some (ProductBase.main_image p) ->
  Events.send_post_save st instance (Ok (ProductObject.mk p cached)) false = Ok st
  \/ exists e, Events.send_post_save st instance (Ok (ProductObject.mk p cached)) false
               = Raise e.
Proof.
  intros Hm. unfold Events.send_post_save.
  cbv beta iota delta [mbind result_bind Py.bind].
  destruct (Store.main_image_of st (ProductObject.mk p cached)); [| eauto].
  left. apply assign_main_image_keeps, Hm.
Qed.

(** The row deletion changes no product that does not name the key. *)
Lemma delete_row_products st k :
  (forall j p, Store.products st !! j = Some p ->
               ProductBase.main_image p <> Some k) ->
  Store.products (Store.delete_row st k) = Store.products st.
Proof.
  intros Hno. cbn. apply map_eq. intros j. rewrite lookup_fmap.
  destruct (Store.products st !! j) as [p |] eqn:Hp; [| reflexivity].
  cbn. f_equal. unfold Store.set_null.
  destruct (decide _) as [E | _]; [| reflexivity].
  exfalso. eapply Hno; eassumption.
Qed.

(** In a sound store, reading [main_image] of a product fetched after a
    deletion never fails. *)
Lemma main_image_of_fetched st k j p cached :
  main_image_sound st ->
  Store.products st !! j = Some p ->
  Store.main_image_of (Store.delete_row st k)
    (ProductObject.mk (Store.set_null k p) cached)
  = Ok (ProductBase.main_image (Store.set_null k p)).
Proof.
  intros Hs Hp. unfold Store.main_image_of. cbn [ProductObject.columns
    ProductObject.main_image_cached].
  destruct (ProductBase.main_image (Store.set_null k p)) as [m |] eqn:Hm;
    [| reflexivity].
  destruct cached; [reflexivity |].
  assert (Hm0 : ProductBase.main_image p = Some m /\ m <> k).
  { unfold Store.set_null in Hm.
    destruct (decide (ProductBase.main_image p = Some k)) as [E | E];
      [discriminate |]. split; [exact Hm | congruence]. }
  destruct Hm0 as [Hm0 Hne].
  destruct (Hs j p m Hp Hm0) as (x & Hx & Ex).
  assert (Hx1 : x ∈ Store.images (Store.delete_row st k)).
  { eapply images_of_elem, images_of_delete_row. split; [exact Hx | congruence]. }
  destruct (get_image_elem _ _ Hx1) as [r Hr]. rewrite Ex in Hr. rewrite Hr.
  reflexivity.
Qed.

Lemma set_null_main_image k p :
  ProductBase.main_image (Store.set_null k p) <> Some k.
Proof.
  unfold Store.set_null. destruct (decide _) as [E | E]; [discriminate | exact E].
Qed.

(** A deletion through an instance that holds no product object: the
    handler fetches the product after the nulling and writes nothing. *)
Lemma handle_deleted_fetch st instance :
  main_image_sound st ->
  Events.handle st (Events.Deleted instance None)
  = (Store.delete_row st (ProductImage.r_pk instance), Ok tt).
Proof.
  intros Hs. unfold Events.handle, Events.on_image_deleted. cbv zeta.
  unfold Events.instance_product, Store.fetch_product.
  cbn [Store.delete_row Store.products]. rewrite lookup_fmap.
  destruct (Store.products st !! ProductImage.r_product_id instance)
    as [p |] eqn:Hp; cbn [fmap option_fmap option_map]; [| reflexivity].
  rewrite (assign_new_main_image_keeps _ _ _ _
             (main_image_of_fetched st _ _ p false Hs Hp));
    [reflexivity |].
  left. apply set_null_main_image.
Qed.
End images_more.



(** [X9] What the deletion handler can raise.  Given the product object,
    it raises exactly when [product.main_image] has to be fetched (a key
    that is not null and not cached) and no image row has that key, and
    what it raises is [ProductImage.DoesNotExist]; the indexing
    [images.all()[0]] never raises, being reached only after
    [images.exists()].  A product that no longer exists is absorbed. *)
Theorem assign_new_main_image_outcome st instance product :
  match Signals.assign_new_main_image st instance (Py.Ok product) with
  | Py.Ok _ =>
      ProductBase.main_image (ProductObject.columns product) = None
      \/ ProductObject.main_image_cached product = true
      \/ exists r, r ∈ Store.images st
                   /\ ProductBase.main_image (ProductObject.columns product)
                      = Some (ProductImage.r_pk r)
  | Py.Raise e =>
      e = Py.DoesNotExist_ProductImage
      /\ ProductObject.main_image_cached product = false
      /\ exists m, ProductBase.main_image (ProductObject.columns product) = Some m
                   /\ forall x, x ∈ Store.images st -> ProductImage.r_pk x <> m
  end
  /\ Signals.assign_new_main_image st instance (Py.Raise Py.DoesNotExist_Product)
     = Py.Ok st.
Proof.
  split; [| reflexivity].
  destruct (Store.main_image_of st product) as [main |] eqn:Hm.
  - assert (Hok : exists st', Signals.assign_new_main_image st instance (Py.Ok product)
                              = Py.Ok st').
    { destruct (decide (main = Some (ProductImage.r_pk instance))) as [-> | Hne].
      - destruct (list_empty_or_elem (Store.images_of st (ProductObject.pk product)))
          as [Hnil | [x Hx]].
        + rewrite (assign_new_main_image_keeps _ _ _ _ Hm) by (right; exact Hnil).
          eauto.
        + destruct (assign_new_main_image_sets st instance product Hm)
            as (f & _ & ->); [| eauto].
          intros E. rewrite E in Hx. inversion Hx.
      - rewrite (assign_new_main_image_keeps _ _ _ _ Hm) by (left; exact Hne).
        eauto. }
    destruct Hok as [st' ->].
    unfold Store.main_image_of in Hm.
    destruct (ProductBase.main_image (ProductObject.columns product)) as [m |];
      [| left; reflexivity].
    destruct (ProductObject.main_image_cached product); [right; left; reflexivity |].
    destruct (Store.get_image st m) as [r | e] eqn:E; [| discriminate].
    apply get_image_Ok in E as [Hr <-]. right. right. eauto.
  - rewrite (assign_new_main_image_raises _ _ _ _ Hm).
    destruct (main_image_of_Raise _ _ _ Hm) as (_ & Hc & Hrow). auto.
Qed.

(** [X10] The handlers write nothing but the product of the image: the
    image rows and every other product are as before, whichever handler
    ran. *)
Theorem handlers_touch_only_the_product st instance product raw st' :
  Signals.assign_main_image st instance
    (Py.Ok (ProductObject.columns product)) raw = Py.Ok st'
  \/ Signals.assign_new_main_image st instance (Py.Ok product) = Py.Ok st' ->
  Store.images st' = Store.images st
  /\ Store.next_pk st' = Store.next_pk st
  /\ forall k, k <> ProductObject.pk product ->
               Store.products st' !! k = Store.products st !! k.
Proof.
  assert (Hshape : st' = st
                   \/ (exists m, st' = Store.save_product st
                                        (ProductBase.mk (ProductObject.pk product)
                                                        (Some m)))
                   -> Store.images st' = Store.images st
                      /\ Store.next_pk st' = Store.next_pk st
                      /\ forall k, k <> ProductObject.pk product ->
                                   Store.products st' !! k = Store.products st !! k).
  { intros [-> | [m ->]]; [auto |]. split; [reflexivity |]. split; [reflexivity |].
    intros k Hk. cbn. apply lookup_insert_ne. congruence. }
  intros [H | H]; apply Hshape.
  - destruct raw; [injection H as <-; auto |].
    destruct (ProductBase.main_image (ProductObject.columns product)) as [m |] eqn:Hm.
    + rewrite assign_main_image_keeps in H by (rewrite Hm; eauto).
      injection H as <-. auto.
    + destruct (list_empty_or_elem
                  (Store.images_of st (ProductBase.pk (ProductObject.columns product))))
        as [Hnil | [x Hx]].
      * rewrite assign_main_image_no_image in H by exact Hnil.
        injection H as <-. auto.
      * destruct (assign_main_image_sets st instance _ Hm) as (f & _ & E).
        { intros E. rewrite E in Hx. inversion Hx. }
        rewrite E in H. injection H as <-. right. eauto.
  - destruct (Store.main_image_of st product) as [main |] eqn:Hm.
    2: { rewrite (assign_new_main_image_raises _ _ _ _ Hm) in H. discriminate. }
    destruct (decide (main = Some (ProductImage.r_pk instance))) as [-> | Hne].
    + destruct (list_empty_or_elem (Store.images_of st (ProductObject.pk product)))
        as [Hnil | [x Hx]].
      * rewrite (assign_new_main_image_keeps _ _ _ _ Hm) in H by (right; exact Hnil).
        injection H as <-. auto.
      * destruct (assign_new_main_image_sets st instance product Hm)
          as (f & _ & E).
        { intros E. rewrite E in Hx. inversion Hx. }
        rewrite E in H. injection H as <-. right. eauto.
    + rewrite (assign_new_main_image_keeps _ _ _ _ Hm) in H by (left; exact Hne).
      injection H as <-. auto.
Qed.

Lemma handlers_touch_only_the_product_witness :
  exists st',
    (Signals.assign_main_image three_images_raw (ProductImage.mkRow 3 1 "c" 2)
       (Py.Ok (ProductObject.columns (ProductObject.mk (ProductBase.mk 1 None) false)))
       false = Py.Ok st'
     \/ Signals.assign_new_main_image three_images_raw (ProductImage.mkRow 3 1 "c" 2)
          (Py.Ok (ProductObject.mk (ProductBase.mk 1 None) false)) = Py.Ok st')
    /\ Store.images st' = Store.images three_images_raw
    /\ Store.next_pk st' = Store.next_pk three_images_raw
    /\ forall k, k <> ProductObject.pk (ProductObject.mk (ProductBase.mk 1 None) false) ->
                 Store.products st' !! k = Store.products three_images_raw !! k.
Proof.
  eexists.
  assert (H : Signals.assign_main_image three_images_raw
                (ProductImage.mkRow 3 1 "c" 2)
                (Py.Ok (ProductObject.columns
                          (ProductObject.mk (ProductBase.mk 1 None) false))) false
              = Py.Ok (Store.save_product three_images_raw
                         (ProductBase.mk 1 (Some 1))))
    by (vm_compute; reflexivity).
  split; [left; exact H |].
  exact (handlers_touch_only_the_product three_images_raw
           (ProductImage.mkRow 3 1 "c" 2)
           (ProductObject.mk (ProductBase.mk 1 None) false) false _
           (or_introl H)).
Defined.

(** [X11] The main image is sticky: when the stored product has a main
    image and the new instance holds no product object, or one that agrees
    with the stored row, creating an image for the product through [save],
    whatever its order, changes no product; the handler only fills a null
    [main_image]. *)
Theorem main_image_is_sticky st pid c o p held :
  Store.products st !! pid = Some p ->
  is_Some (ProductBase.main_image p) ->
  holds_current st pid held ->
  Store.products (Events.step st (Events.Created pid c o false held))
  = Store.products st.
Proof.
  intros Hp Hm Hc.
  destruct (step_created st pid c o held p Hp Hc) as (r & cached & _ & _ & E).
  unfold Events.step. rewrite E.
  destruct (send_post_save_set (Store.insert_row st r) r p cached Hm)
    as [-> | [e ->]]; reflexivity.
Qed.

Lemma three_images_wf : store_wf three_images.
Proof. eapply written_wf; [apply run_written | exact empty_store_wf]. Qed.

Lemma three_images_raw_wf : store_wf three_images_raw.
Proof. eapply written_wf; [apply run_written | exact empty_store_wf]. Qed.

Lemma three_images_sound : main_image_sound three_images.
Proof. eapply written_sound; [apply run_written | exact empty_store_sound]. Qed.

Lemma main_image_is_sticky_witness :
  Store.products three_images !! 1 = Some (ProductBase.mk 1 (Some 1))
  /\ is_Some (ProductBase.main_image (ProductBase.mk 1 (Some 1)))
  /\ holds_current three_images 1 None
  /\ Store.products
       (Events.step three_images (Events.Created 1 "first" (Some 0%N) false None))
     = Store.products three_images.
Proof.
  assert (Hp : Store.products three_images !! 1 = Some (ProductBase.mk 1 (Some 1)))
    by (vm_compute; reflexivity).
  assert (Hm : is_Some (ProductBase.main_image (ProductBase.mk 1 (Some 1))))
    by (exists 1; reflexivity).
  split; [exact Hp |]. split; [exact Hm |]. split; [exact I |].
  exact (main_image_is_sticky three_images 1 "first" (Some 0%N)
           (ProductBase.mk 1 (Some 1)) None Hp Hm I).
Defined.

(** [X12] Creating an image through [save] for a stored product whose
    [main_image] is null, with the new instance holding no product object
    or one that agrees with the stored row, gives the product a main
    image: a first image by ascending [order] among the images the product
    has once the new row is in.  A product left without main image by raw
    loads is repaired by such a creation. *)
Theorem created_assigns_main_image st pid c o p held :
  store_wf st ->
  Store.products st !! pid = Some p ->
  ProductBase.main_image p = None ->
  holds_current st pid held ->
  exists first,
    first_by_order
      (Store.images_of (Events.step st (Events.Created pid c o false held)) pid)
      first
    /\ Store.products (Events.step st (Events.Created pid c o false held)) !! pid
       = Some (ProductBase.mk pid (Some (ProductImage.r_pk first))).
Proof.
  intros Hwf Hp Hm Hc.
  assert (Hk : ProductBase.pk p = pid) by (apply Hwf, Hp).
  destruct (step_created st pid c o held p Hp Hc) as (r & cached & _ & Hrp & E).
  rewrite send_post_save_null in E by exact Hm.
  assert (Hne : Store.images_of (Store.insert_row st r) (ProductBase.pk p) <> []).
  { rewrite Hk, <- Hrp. intros Hnil.
    pose proof (images_of_insert_row_new st r) as Hr. rewrite Hnil in Hr.
    inversion Hr. }
  destruct (assign_main_image_sets (Store.insert_row st r) r p Hm Hne)
    as (first & Hfirst & Hset).
  unfold Events.step. rewrite E, Hset. cbn [fst]. rewrite Hk in *.
  exists first. split; [exact Hfirst |]. cbn. apply lookup_insert_eq.
Qed.

Lemma created_assigns_main_image_witness :
  store_wf three_images_raw
  /\ Store.products three_images_raw !! 1 = Some (ProductBase.mk 1 None)
  /\ ProductBase.main_image (ProductBase.mk 1 None) = None
  /\ holds_current three_images_raw 1
       (Some (ProductObject.mk (ProductBase.mk 1 None) false))
  /\ exists first,
       first_by_order
         (Store.images_of
            (Events.step three_images_raw
               (Events.Created 1 "d" (Some 7%N) false
                  (Some (ProductObject.mk (ProductBase.mk 1 None) false)))) 1)
         first
       /\ Store.products
            (Events.step three_images_raw
               (Events.Created 1 "d" (Some 7%N) false
                  (Some (ProductObject.mk (ProductBase.mk 1 None) false))))
          !! 1
          = Some (ProductBase.mk 1 (Some (ProductImage.r_pk first))).
Proof.
  assert (Hp : Store.products three_images_raw !! 1 = Some (ProductBase.mk 1 None))
    by (vm_compute; reflexivity).
  split; [exact three_images_raw_wf |]. split; [exact Hp |].
  split; [reflexivity |]. split; [exact Hp |].
  exact (created_assigns_main_image three_images_raw 1 "d" (Some 7%N)
           (ProductBase.mk 1 None)
           (Some (ProductObject.mk (ProductBase.mk 1 None) false))
           three_images_raw_wf Hp eq_refl Hp).
Defined.

(** [X20] Deleting an image through an instance that holds no product
    object only deletes: in a store without dangling main images the
    event removes the row, nulls the [main_image] that pointed at it and
    raises nothing, and no other image is made the main image. *)
Theorem delete_without_held_product st instance :
  main_image_sound st ->
  Events.handle st (Events.Deleted instance None)
  = (Store.delete_row st (ProductImage.r_pk instance), Py.Ok tt).
Proof. apply handle_deleted_fetch. Qed.

Lemma delete_without_held_product_witness :
  main_image_sound three_images
  /\ Events.handle three_images (Events.Deleted (ProductImage.mkRow 1 1 "a" 0) None)
     = (Store.delete_row three_images 1, Py.Ok tt).
Proof.
  split; [exact three_images_sound |].
  exact (delete_without_held_product three_images (ProductImage.mkRow 1 1 "a" 0)
           three_images_sound).
Defined.

(** [X13] Deleting an image that no product has as its main image, in a
    store without dangling main images and through an instance that holds
    no product object or one that agrees with the stored row, changes no
    product, and no row with that key is left. *)
Theorem delete_unreferenced_image st instance held :
  main_image_sound st ->
  (forall j p, Store.products st !! j = Some p ->
               ProductBase.main_image p <> Some (ProductImage.r_pk instance)) ->
  holds_current st (ProductImage.r_product_id instance) held ->
  Store.products (Events.step st (Events.Deleted instance held))
  = Store.products st
  /\ forall x, x ∈ Store.images (Events.step st (Events.Deleted instance held)) ->
               ProductImage.r_pk x <> ProductImage.r_pk instance.
Proof.
  intros Hs Hno Hc.
  assert (E : Events.step st (Events.Deleted instance held)
              = Store.delete_row st (ProductImage.r_pk instance)).
  { destruct held as [product |].
    - unfold Events.step, Events.handle, Events.on_image_deleted. cbv zeta.
      cbn [Events.instance_product]. cbn in Hc.
      destruct product as [p cached]. cbn in Hc.
      assert (Hp' : Store.set_null (ProductImage.r_pk instance) p = p).
      { unfold Store.set_null. destruct (decide _) as [E | _]; [| reflexivity].
        exfalso. eapply Hno; eassumption. }
      pose proof (main_image_of_fetched st (ProductImage.r_pk instance) _ p cached
                    Hs Hc) as Hm.
      rewrite Hp' in Hm.
      rewrite (assign_new_main_image_keeps _ _ _ _ Hm); [reflexivity |].
      left. cbn. eapply Hno, Hc.
    - unfold Events.step. rewrite handle_deleted_fetch by exact Hs.
      reflexivity. }
  rewrite E. split.
  - apply delete_row_products. exact Hno.
  - cbn. intros x [Hx _]%list_elem_of_filter. exact Hx.
Qed.

Lemma delete_unreferenced_image_witness :
  main_image_sound three_images
  /\ (forall j p, Store.products three_images !! j = Some p ->
                  ProductBase.main_image p
                  <> Some (ProductImage.r_pk (ProductImage.mkRow 3 1 "c" 2)))
  /\ holds_current three_images
       (ProductImage.r_product_id (ProductImage.mkRow 3 1 "c" 2)) None
  /\ Store.products
       (Events.step three_images (Events.Deleted (ProductImage.mkRow 3 1 "c" 2) None))
     = Store.products three_images
  /\ forall x,
       x ∈ Store.images
             (Events.step three_images
                (Events.Deleted (ProductImage.mkRow 3 1 "c" 2) None)) ->
       ProductImage.r_pk x <> ProductImage.r_pk (ProductImage.mkRow 3 1 "c" 2).
Proof.
  assert (H : forall j p, Store.products three_images !! j = Some p ->
                          ProductBase.main_image p
                          <> Some (ProductImage.r_pk (ProductImage.mkRow 3 1 "c" 2))).
  { intros j p Hp.
    assert (E : Store.products three_images = {[ 1 := ProductBase.mk 1 (Some 1) ]})
      by (vm_compute; reflexivity).
    rewrite E in Hp. apply lookup_singleton_Some in Hp as [_ <-]. discriminate. }
  split; [exact three_images_sound |]. split; [exact H |]. split; [exact I |].
  exact (delete_unreferenced_image three_images (ProductImage.mkRow 3 1 "c" 2) None
           three_images_sound H I).
Defined.

(** [X14] The case in which the deletion handler does promote an image:
    the deleted instance holds the product object that names it as main
    image and has it in its cache (as after the creation that made it the
    main image), and the product has another image.  The product then ends
    with a first remaining image by ascending [order] as its main image. *)
Theorem delete_main_image_reassigns st instance product other :
  ProductBase.main_image (ProductObject.columns product)
  = Some (ProductImage.r_pk instance) ->
  ProductObject.main_image_cached product = true ->
  other ∈ Store.images_of st (ProductObject.pk product) ->
  ProductImage.r_pk other <> ProductImage.r_pk instance ->
  exists first,
    first_by_order
      (Store.images_of (Events.step st (Events.Deleted instance (Some product)))
                       (ProductObject.pk product)) first
    /\ ProductImage.r_pk first <> ProductImage.r_pk instance
    /\ Store.products (Events.step st (Events.Deleted instance (Some product)))
       !! ProductObject.pk product
       = Some (ProductBase.mk (ProductObject.pk product)
                              (Some (ProductImage.r_pk first))).
Proof.
  intros Hm Hcached Hother Hne.
  set (st1 := Store.delete_row st (ProductImage.r_pk instance)).
  assert (Hmain : Store.main_image_of st1 product
                  = Py.Ok (Some (ProductImage.r_pk instance))).
  { unfold Store.main_image_of. rewrite Hm, Hcached. reflexivity. }
  assert (Hrem : Store.images_of st1 (ProductObject.pk product) <> []).
  { intros E.
    assert (H : other ∈ Store.images_of st1 (ProductObject.pk product))
      by (apply images_of_delete_row; auto).
    rewrite E in H. inversion H. }
  destruct (assign_new_main_image_sets st1 instance product Hmain Hrem)
    as (first & Hfirst & Hset).
  exists first.
  unfold Events.step, Events.handle, Events.on_image_deleted. cbv zeta.
  cbn [Events.instance_product]. fold st1. rewrite Hset. cbn [fst].
  split; [exact Hfirst |]. split.
  - destruct Hfirst as [Hin _]. apply images_of_delete_row in Hin. apply Hin.
  - cbn. apply lookup_insert_eq.
Qed.

Lemma delete_main_image_reassigns_witness :
  ProductImage.mkRow 3 1 "c" 2
  ∈ Store.images_of three_images
      (ProductObject.pk (ProductObject.mk (ProductBase.mk 1 (Some 1)) true))
  /\ exists first,
       first_by_order
         (Store.images_of
            (Events.step three_images
               (Events.Deleted (ProductImage.mkRow 1 1 "a" 0)
                  (Some (ProductObject.mk (ProductBase.mk 1 (Some 1)) true))))
            (ProductObject.pk (ProductObject.mk (ProductBase.mk 1 (Some 1)) true)))
         first
       /\ ProductImage.r_pk first <> ProductImage.r_pk (ProductImage.mkRow 1 1 "a" 0)
       /\ Store.products
            (Events.step three_images
               (Events.Deleted (ProductImage.mkRow 1 1 "a" 0)
                  (Some (ProductObject.mk (ProductBase.mk 1 (Some 1)) true))))
          !! ProductObject.pk (ProductObject.mk (ProductBase.mk 1 (Some 1)) true)
          = Some (ProductBase.mk
                    (ProductObject.pk
                       (ProductObject.mk (ProductBase.mk 1 (Some 1)) true))
                    (Some (ProductImage.r_pk first))).
Proof.
  assert (Hin : ProductImage.mkRow 3 1 "c" 2
                ∈ Store.images_of three_images
                    (ProductObject.pk
                       (ProductObject.mk (ProductBase.mk 1 (Some 1)) true))).
  { vm_compute. right. right. left. }
  split; [exact Hin |].
  apply (delete_main_image_reassigns three_images (ProductImage.mkRow 1 1 "a" 0)
           (ProductObject.mk (ProductBase.mk 1 (Some 1)) true)
           (ProductImage.mkRow 3 1 "c" 2) eq_refl eq_refl Hin).
  cbn. lia.
Defined.

(** [X15] Deleting the only image of a product, through an instance that
    holds no product object: the product is fetched with its [main_image]
    already nulled by [on_delete=SET_NULL], the handler finds nothing to
    do, and the product is left with no image and a null [main_image]. *)
Theorem delete_last_image_nulls_main st instance p :
  main_image_sound st ->
  Store.products st !! ProductImage.r_product_id instance = Some p ->
  ProductBase.main_image p = Some (ProductImage.r_pk instance) ->
  (forall x, x ∈ Store.images_of st (ProductImage.r_product_id instance) ->
             ProductImage.r_pk x = ProductImage.r_pk instance) ->
  Store.images_of (Events.step st (Events.Deleted instance None))
                  (ProductImage.r_product_id instance) = []
  /\ Store.products (Events.step st (Events.Deleted instance None))
     !! ProductImage.r_product_id instance
     = Some (ProductBase.mk (ProductBase.pk p) None).
Proof.
  intros Hs Hp Hm Honly.
  unfold Events.step. rewrite handle_deleted_fetch by exact Hs. cbn [fst].
  split.
  - destruct (list_empty_or_elem
                (Store.images_of (Store.delete_row st (ProductImage.r_pk instance))
                                 (ProductImage.r_product_id instance)))
      as [E | [x Hx]]; [exact E | exfalso].
    apply images_of_delete_row in Hx as [Hx Hne]. auto.
  - cbn. rewrite lookup_fmap, Hp. cbn.
    unfold Store.set_null. rewrite decide_True by exact Hm. reflexivity.
Qed.

Lemma one_image_facts :
  main_image_sound one_image
  /\ Store.products one_image !! 1 = Some (ProductBase.mk 1 (Some 1)).
Proof.
  split; [| vm_compute; reflexivity].
  eapply written_sound; [apply run_written | exact empty_store_sound].
Qed.

Lemma delete_last_image_nulls_main_witness :
  main_image_sound one_image
  /\ (forall x, x ∈ Store.images_of one_image 1 -> ProductImage.r_pk x = 1)
  /\ Store.images_of
       (Events.step one_image (Events.Deleted (ProductImage.mkRow 1 1 "a" 0) None)) 1
     = []
  /\ Store.products
       (Events.step one_image (Events.Deleted (ProductImage.mkRow 1 1 "a" 0) None))
     !! 1
     = Some (ProductBase.mk 1 None).
Proof.
  destruct one_image_facts as (Hs & Hp).
  assert (Honly : forall x, x ∈ Store.images_of one_image 1 ->
                            ProductImage.r_pk x = 1).
  { intros x Hx. vm_compute in Hx. apply list_elem_of_singleton in Hx as ->.
    reflexivity. }
  split; [exact Hs |]. split; [exact Honly |].
  exact (delete_last_image_nulls_main one_image (ProductImage.mkRow 1 1 "a" 0)
           (ProductBase.mk 1 (Some 1)) Hs Hp eq_refl Honly).
Defined.

Section raw_loads.
Import Py.

Lemma step_raw_products st pid c o held :
  Store.products (Events.step st (Events.Created pid c o true held))
  = Store.products st.
Proof.
  unfold Events.step, Events.handle, Events.on_image_created,
    Events.send_post_save. cbv zeta.
  destruct o as [n |]; reflexivity.
Qed.
End raw_loads.

(** [X16] Raw loads never touch a product: after any sequence of raw
    image creations every product row, and so every [main_image], is as
    it was. *)
Theorem raw_loads_leave_products st evs :
  Forall (fun ev => Events.is_raw ev = true) evs ->
  Store.products (Events.run st evs) = Store.products st.
Proof.
  revert st. induction evs as [| ev evs IH]; intros st Hraw; [reflexivity |].
  apply Forall_cons in Hraw as [Hev Hraw]. cbn.
  rewrite IH by exact Hraw.
  destruct ev as [pid c o raw held | instance held]; cbn in Hev; [| discriminate].
  subst raw. apply step_raw_products.
Qed.

Lemma raw_loads_leave_products_witness :
  Forall (fun ev => Events.is_raw ev = true)
    [Events.Created 1 "a" (Some 0%N) true None;
     Events.Created 1 "b" (Some 1%N) true None;
     Events.Created 1 "c" (Some 2%N) true None]
  /\ Store.products three_images_raw = Store.products empty_store.
Proof.
  assert (H : Forall (fun ev => Events.is_raw ev = true)
                [Events.Created 1 "a" (Some 0%N) true None;
                 Events.Created 1 "b" (Some 1%N) true None;
                 Events.Created 1 "c" (Some 2%N) true None])
    by (repeat constructor).
  split; [exact H |].
  exact (raw_loads_leave_products empty_store _ H).
Defined.

(** * The display name of an image *)

Section display_name.
Import OsPath.
Local Open Scope string_scope.

Lemma slice_from_0 p : slice_from 0 p = p.
Proof. reflexivity. Qed.

(** [basename] one character at a time *)
Lemma basename_String a r :
  basename (String a r)
  = match rfind_slash r with
    | Some _ => basename r
    | None => if Ascii.eqb a "/" then r else String a r
    end.
Proof.
  unfold basename. cbn [rfind_slash].
  destruct (rfind_slash r) as [i |]; [reflexivity |].
  destruct (Ascii.eqb a "/"); reflexivity.
Qed.

Lemma basename_no_slash p : rfind_slash p = None -> basename p = p.
Proof. intros H. unfold basename. rewrite H. reflexivity. Qed.

Lemma append_nil_l (s : string) : "" ++ s = s.
Proof. reflexivity. Qed.

Lemma append_String a (d s : string) : String a d ++ s = String a (d ++ s).
Proof. reflexivity. Qed.

Lemma rfind_slash_app_slash d f : is_Some (rfind_slash (d ++ String "/" f)).
Proof.
  induction d as [| a d [i IH]].
  - rewrite append_nil_l. cbn [rfind_slash].
    destruct (rfind_slash f); [eauto |]. rewrite Ascii.eqb_refl. eauto.
  - rewrite append_String. cbn [rfind_slash]. rewrite IH. eauto.
Qed.
End display_name.

(** [X17] The display name of an image contains no slash and is the end
    of the stored file name: the name is some directory part followed by
    the display name. *)
Theorem unicode_is_last_component image_name :
  OsPath.rfind_slash (ProductImage_unicode image_name) = None
  /\ exists dir, image_name = (dir ++ ProductImage_unicode image_name)%string.
Proof.
  unfold ProductImage_unicode.
  induction image_name as [| a r [IH1 [dir IH2]]].
  - split; [reflexivity | exists ""%string; reflexivity].
  - rewrite basename_String.
    destruct (OsPath.rfind_slash r) as [i |] eqn:E.
    + split; [exact IH1 |]. exists (String a dir).
      rewrite append_String. f_equal. exact IH2.
    + destruct (Ascii.eqb a "/") eqn:Ea.
      * split; [exact E |]. exists (String a ""). reflexivity.
      * split; [cbn; rewrite E, Ea; reflexivity | exists ""%string; reflexivity].
Qed.

(** [X18] For a file name [dir/f] where [f] has no slash the display name
    is [f], whatever the directory; in particular a name that ends in a
    slash displays as the empty string. *)
Theorem unicode_of_path dir f :
  OsPath.rfind_slash f = None ->
  ProductImage_unicode (dir ++ String "/" f)%string = f.
Proof.
  intros Hf. unfold ProductImage_unicode.
  induction dir as [| a d IH].
  - rewrite append_nil_l, basename_String, Hf. reflexivity.
  - rewrite append_String, basename_String.
    destruct (rfind_slash_app_slash d f) as [i ->]. exact IH.
Qed.

Lemma unicode_of_path_witness :
  OsPath.rfind_slash "hat.png" = None
  /\ ProductImage_unicode ("products/2011" ++ String "/" "hat.png")%string
     = "hat.png".
Proof.
  split; [reflexivity |].
  exact (unicode_of_path "products/2011" "hat.png" eq_refl).
Defined.
